(** * bitbucket_commits_update: the commit mirror, embedded in Rocq

    A shallow embedding of [bitbucket_commits_update.py]: the two timestamp
    helpers ([get_tzinfo_from_dt], [parse_timestamp_utc]) and the class
    [BitbucketUpdate] ([get_commits], [_process_repo], [process],
    [post_finished], [post]).

    What the program calls but does not define is kept outside:
    - [dateutil.parser.parse] is a parameter [parse] of the functions that
      call it;
    - the HTTP transport is a pair of oracles, [upstream] (the decoded reply
      to the n-th history request, by URL) and [endpoint] (the body of the
      reply to the n-th POST);
    - the Redis client is redis-py 2.x, the client of the program's time: the
      store is a finite map from keys to strings, and [set] writes [str] of
      the value it is given, so Python's [None] is stored as the text None
      (later versions of the client refuse [None] instead);
    - [statsd] and the [timing] decorator touch nothing the program reads and
      are left out.

    Python values are taken at the types the code indexes them with: a
    decoded history reply is a dict whose ["changesets"] entry, when there is
    one, is a list of dicts with string fields. *)

From Stdlib Require Import ZArith Ascii String DecimalString.
From stdpp Require Import base tactics option list strings gmap.

Local Open Scope Z_scope.

(** ** Exceptions and fallible computations *)

Inductive exn : Type :=
  | KeyError (key : string)
  | IndexError
  | ValueError
  | OverflowError.

Inductive res (A : Type) : Type :=
  | Ok (a : A)
  | Raise (e : exn).

Arguments Ok {A} a.
Arguments Raise {A} e.

#[global] Instance res_ret : MRet res := fun A a => Ok a.
#[global] Instance res_bind : MBind res := fun A B f m =>
  match m with
  | Ok a => f a
  | Raise e => Raise e
  end.

(** ** The Python string operations the program uses *)

Module PyStr.

(** [a < b], [a <= b], [a > b], [a >= b] on [str]: the order of the character
    codes, position by position. *)
Definition lt (a b : string) : bool := String.ltb a b.
Definition le (a b : string) : bool := String.leb a b.
Definition gt (a b : string) : bool := String.ltb b a.
Definition ge (a b : string) : bool := String.leb b a.

(** [c in s] for a one-character [c]. *)
Fixpoint contains (c : ascii) (s : string) : bool :=
  match s with
  | EmptyString => false
  | String a s' => if Ascii.eqb a c then true else contains c s'
  end.

(** [s.split(c)] for a one-character separator [c]. *)
Fixpoint split (c : ascii) (s : string) : list string :=
  match s with
  | EmptyString => [EmptyString]
  | String a s' =>
      if Ascii.eqb a c then EmptyString :: split c s'
      else match split c s' with
           | h :: t => String a h :: t
           | [] => [String a EmptyString]
           end
  end.

(** [s.rsplit(c, 1)] for a one-character separator [c]: one cut, at the
    last occurrence. *)
Fixpoint rsplit1 (c : ascii) (s : string) : list string :=
  match s with
  | EmptyString => [EmptyString]
  | String a s' =>
      match rsplit1 c s' with
      | [h; t] => [String a h; t]
      | _ => if Ascii.eqb a c then [EmptyString; s'] else [String a s']
      end
  end.

(** [s.replace(c, new)] for a one-character [c]. *)
Fixpoint replace (c : ascii) (new : string) (s : string) : string :=
  match s with
  | EmptyString => EmptyString
  | String a s' =>
      if Ascii.eqb a c then new +:+ replace c new s'
      else String a (replace c new s')
  end.

(** [s.endswith(suffix)]. *)
Definition endswith (s suffix : string) : bool :=
  let n := String.length s in
  let m := String.length suffix in
  if (m <=? n)%nat then String.eqb (String.substring (n - m) m s) suffix
  else false.

(** ["0" * n]. *)
Fixpoint zeros (n : nat) : string :=
  match n with
  | O => EmptyString
  | S n' => String "0" (zeros n')
  end.

(** The decimal digits of a natural number, as ["%d"] prints them. *)
Definition digits (n : N) : string :=
  NilZero.string_of_uint (N.to_uint n).

Definition zfill (w : nat) (s : string) : string :=
  zeros (w - String.length s) +:+ s.

(** ["%0<w>d" % z]: the sign counts in the width. *)
Definition fmt_0d (w : nat) (z : Z) : string :=
  if z <? 0 then String "-" (zfill (w - 1) (digits (Z.to_N (- z))))
  else zfill w (digits (Z.to_N z)).

End PyStr.

(** ** The part of [datetime] the program uses *)

Module PyDatetime.

(** A [timedelta] is its length in microseconds. *)
Abbreviation timedelta := Z.

Definition us_per_second : Z := 1000000.
Definition us_per_day : Z := 86400 * us_per_second.

(** [td.seconds]: a [timedelta] is kept as days, seconds in [0, 86400) and
    microseconds in [0, 10^6), the days carrying the sign. *)
Definition td_seconds (td : timedelta) : Z := (td / us_per_second) mod 86400.
Definition td_of_hours (h : Z) : timedelta := h * 3600 * us_per_second.

(** What the program observes of a [tzinfo] object: the offset [str] prints
    (whole minutes east of UTC, [None] when [utcoffset()] gives [None]), and
    the [_offset] attribute when the object has one (dateutil's [tzoffset]
    has it; [tzutc] and [tzlocal] do not). *)
Record tz : Type := {
  utcoffset : option Z;
  offset_attr : option timedelta
}.

(** A [datetime]: the wall-clock reading in microseconds since
    0001-01-01 00:00:00, and the attached [tzinfo]. *)
Record datetime : Type := {
  wall : Z;
  tzinfo : option tz
}.

(** [dt.replace(tzinfo=t)]. *)
Definition replace_tzinfo (dt : datetime) (t : option tz) : datetime :=
  {| wall := wall dt; tzinfo := t |}.

(** [datetime.max] is 9999-12-31 23:59:59.999999, day 3652059. *)
Definition max_wall : Z := 3652059 * us_per_day - 1.

(** [dt.utcoffset()] in microseconds; [None] for a datetime without tzinfo,
    or with one that gives no offset. *)
Definition utcoffset_us (dt : datetime) : option Z :=
  m ← tzinfo dt ≫= utcoffset; Some (m * 60 * us_per_second).

(** [dt1 <= dt2]: two datetimes without offset compare by their wall-clock
    readings, two with an offset by the instants they denote, and Python
    refuses to compare one of each ([None] stands for its [TypeError]). *)
Definition dt_le (dt1 dt2 : datetime) : option bool :=
  match utcoffset_us dt1, utcoffset_us dt2 with
  | None, None => Some (wall dt1 <=? wall dt2)
  | Some o1, Some o2 => Some (wall dt1 - o1 <=? wall dt2 - o2)
  | _, _ => None
  end.

(** [dt2 - dt1] for two naive datetimes. *)
Definition dt_diff (dt2 dt1 : datetime) : timedelta := wall dt2 - wall dt1.

(** [dt - td] and [dt + td]: [OverflowError] outside year 1..9999. *)
Definition dt_add (dt : datetime) (td : timedelta) : res datetime :=
  let w := wall dt + td in
  if (0 <=? w) && (w <=? max_wall)
  then Ok {| wall := w; tzinfo := tzinfo dt |}
  else Raise OverflowError.
Definition dt_sub (dt : datetime) (td : timedelta) : res datetime :=
  dt_add dt (- td).

(** The proleptic Gregorian calendar, as [datetime.py] computes it. *)
Definition is_leap (year : Z) : bool :=
  (year mod 4 =? 0) && (negb (year mod 100 =? 0) || (year mod 400 =? 0)).

Definition days_before_year (year : Z) : Z :=
  let y := year - 1 in y * 365 + y / 4 - y / 100 + y / 400.

Definition days_in_month_table (month : Z) : Z :=
  match month with
  | 1 => 31 | 2 => 28 | 3 => 31 | 4 => 30 | 5 => 31 | 6 => 30
  | 7 => 31 | 8 => 31 | 9 => 30 | 10 => 31 | 11 => 30 | 12 => 31
  | _ => -1
  end.

Definition days_before_month_table (month : Z) : Z :=
  match month with
  | 1 => 0 | 2 => 31 | 3 => 59 | 4 => 90 | 5 => 120 | 6 => 151
  | 7 => 181 | 8 => 212 | 9 => 243 | 10 => 273 | 11 => 304 | 12 => 334
  | _ => -1
  end.

Definition days_before_month (year month : Z) : Z :=
  days_before_month_table month
  + (if (2 <? month) && is_leap year then 1 else 0).

Definition ymd2ord (year month day : Z) : Z :=
  days_before_year year + days_before_month year month + day.

Definition DI400Y : Z := 146097.
Definition DI100Y : Z := 36524.
Definition DI4Y : Z := 1461.

(** The month and the day of the month of day [n] of a year, counting from
    0: the last lines of [_ord2ymd]. *)
Definition month_day (n : Z) (leapyear : bool) : Z * Z :=
  let month := Z.shiftr (n + 50) 5 in
  let preceding :=
    days_before_month_table month
    + (if (2 <? month) && leapyear then 1 else 0) in
  let '(month, preceding) :=
    if n <? preceding
    then (month - 1,
          preceding - (days_in_month_table (month - 1)
                       + (if (month - 1 =? 2) && leapyear then 1 else 0)))
    else (month, preceding) in
  (month, n - preceding + 1).

Definition ord2ymd (n : Z) : Z * Z * Z :=
  let n := n - 1 in
  let n400 := n / DI400Y in
  let n := n mod DI400Y in
  let year := n400 * 400 + 1 in
  let n100 := n / DI100Y in
  let n := n mod DI100Y in
  let n4 := n / DI4Y in
  let n := n mod DI4Y in
  let n1 := n / 365 in
  let n := n mod 365 in
  let year := year + n100 * 100 + n4 * 4 + n1 in
  if (n1 =? 4) || (n100 =? 4) then (year - 1, 12, 31)
  else
    let leapyear := (n1 =? 3) && (negb (n4 =? 24) || (n100 =? 3)) in
    let '(month, day) := month_day n leapyear in
    (year, month, day).

(** [datetime(year, month, day, hour, minute, second, microsecond, tz)]. *)
Definition mk_datetime (year month day hour minute second us : Z)
    (t : option tz) : datetime :=
  {| wall := (((ymd2ord year month day - 1) * 86400
               + hour * 3600 + minute * 60 + second) * us_per_second + us);
     tzinfo := t |}.

(** The sign, hours and minutes of a UTC offset, as [isoformat] appends
    them. *)
Definition format_utcoffset (minutes : Z) : string :=
  let sign := if minutes <? 0 then "-" else "+" in
  let m := Z.abs minutes in
  sign +:+ PyStr.fmt_0d 2 (m / 60) +:+ ":" +:+ PyStr.fmt_0d 2 (m mod 60).

(** The time of day of [str(dt)]: HH:MM:SS, and .ffffff when the
    microseconds are not zero. *)
Definition format_time (w : Z) : string :=
  let r := w mod us_per_day in
  let s := r / us_per_second in
  let us := r mod us_per_second in
  PyStr.fmt_0d 2 (s / 3600) +:+ ":" +:+ PyStr.fmt_0d 2 (s / 60 mod 60)
  +:+ ":" +:+ PyStr.fmt_0d 2 (s mod 60)
  +:+ (if us =? 0 then "" else "." +:+ PyStr.fmt_0d 6 us).

Definition format_date (w : Z) : string :=
  let '(y, m, d) := ord2ymd (w / us_per_day + 1) in
  PyStr.fmt_0d 4 y +:+ "-" +:+ PyStr.fmt_0d 2 m +:+ "-" +:+ PyStr.fmt_0d 2 d.

(** [str(dt)], that is [dt.isoformat(' ')]. *)
Definition str (dt : datetime) : string :=
  format_date (wall dt) +:+ " " +:+ format_time (wall dt)
  +:+ match tzinfo dt with
      | Some t =>
          match utcoffset t with
          | Some m => format_utcoffset m
          | None => ""
          end
      | None => ""
      end.

End PyDatetime.

Import PyDatetime.

(** ** The timestamp helpers *)

(** [get_tzinfo_from_dt(dt1, dt2)]. *)
Definition get_tzinfo_from_dt (dt1 dt2 : datetime) : string :=
  let dt1 := replace_tzinfo dt1 None in
  let dt2 := replace_tzinfo dt2 None in
  let diff := dt_diff dt2 dt1 in
  let prefix := "+" in
  let '(prefix, diff) :=
    if diff <? 0 then ("-", Z.abs diff) else (prefix, diff) in
  let hours := td_seconds diff / 3600 in
  let minutes := td_seconds diff / 60 mod 60 in
  prefix +:+ PyStr.fmt_0d 2 hours +:+ ":" +:+ PyStr.fmt_0d 2 minutes.

(** [parse_timestamp_utc(time_str)], over the parser it calls. *)
Definition parse_timestamp_utc (parse : string -> res datetime)
    (time_str : string) : res (datetime * string) :=
  parsed ← parse time_str;
  let offset_str := PyStr.rsplit1 "+" (str parsed) in
  let prefix := "+" in
  let '(offset_str, prefix) :=
    if (length offset_str =? 1)%nat
    then (PyStr.rsplit1 "-" (nth 0 offset_str ""), "-")
    else (offset_str, prefix) in
  let offset_str :=
    if (length offset_str =? 2)%nat
    then prefix +:+ nth 1 offset_str ""
    else "" in
  let offset :=
    match tzinfo parsed ≫= offset_attr with
    | Some o => o
    | None => 0
    end in
  parsed ← dt_sub (replace_tzinfo parsed None) offset;
  mret (parsed, offset_str).

(** ** The commit mirror *)

(** A changeset and a repository descriptor are JSON objects with string
    fields; a decoded history reply is an object that may hold a list of
    changesets. *)
Abbreviation commit := (gmap string string).
Abbreviation repo := (gmap string string).
Abbreviation page := (gmap string (list (gmap string string))).

(** [d[key]]: [KeyError] when the key is missing. *)
Definition getitem (d : gmap string string) (key : string) : res string :=
  match d !! key with
  | Some v => Ok v
  | None => Raise (KeyError key)
  end.

(** [l[i]]: [IndexError] past the end. *)
Definition index {A : Type} (l : list A) (i : nat) : res A :=
  match l !! i with
  | Some v => Ok v
  | None => Raise IndexError
  end.

(** The dict handed to [post]. *)
Record event : Type := {
  ev_system : string;
  ev_timestamp : string;
  ev_username : string;
  ev_data : string;
  ev_is_utc : bool;
  ev_tzinfo : string
}.

(** What the program does to the outside, in the order it does it. *)
Inductive io : Type :=
  | HttpGet (url : string)
  | HttpPost (body : list event)
  | RedisSet (key : string) (value : option string).

(** The state the program changes: the pending events, the key-value store
    (a key maps to the string kept under it) and the trace of what was done
    so far. *)
Record state : Type := {
  post_queue : list event;
  redis : gmap string string;
  trace : list io
}.

Definition set_post_queue (q : list event) (st : state) : state :=
  {| post_queue := q; redis := redis st; trace := trace st |}.
Definition set_redis (r : gmap string string) (st : state) : state :=
  {| post_queue := post_queue st; redis := r; trace := trace st |}.
Definition emit (a : io) (st : state) : state :=
  {| post_queue := post_queue st; redis := redis st;
     trace := trace st ++ [a] |}.

(** A method body: it reads and changes the state, and returns or raises. *)
Definition M (A : Type) : Type := state -> res A * state.

#[global] Instance M_ret : MRet M := fun A a st => (Ok a, st).
#[global] Instance M_bind : MBind M := fun A B f m st =>
  match m st with
  | (Ok a, st') => f a st'
  | (Raise e, st') => (Raise e, st')
  end.

Definition lift {A : Type} (r : res A) : M A := fun st => (r, st).

(** How a pass over one commit, or over one page, ends: the [for] loop goes
    on with the running maximum, or the method returns. *)
Inductive flow : Type :=
  | Continue (last_processed_save : string)
  | Return (value : string).

Definition epoch : string := "1970-01-01T00:00:00".

(** What the client writes for a value handed to [set]: a [str] as it is,
    and [str(value)] for anything else, which for [None] is the text None. *)
Definition redis_encode (value : option string) : string :=
  match value with
  | Some s => s
  | None => "None"
  end.

(** ** Sample data

    The repositories, pages and replies the examples below run the program
    on. *)

Module Sample.

Definition digit_value (c : ascii) : option Z :=
  Z.of_nat <$> Ascii.is_nat c.

Fixpoint number_from (acc : Z) (s : string) : option Z :=
  match s with
  | EmptyString => Some acc
  | String c s' => d ← digit_value c; number_from (acc * 10 + d) s'
  end.

(** The text between positions [i] and [i + n], read as a decimal number. *)
Definition field (i n : nat) (s : string) : option Z :=
  let t := String.substring i n s in
  if (String.length t =? n)%nat then number_from 0 t else None.

(** A parser for the one shape the samples use: YYYY-MM-DD, any one
    character, HH:MM:SS, and then nothing or a signed HH:MM, which becomes a
    [tzoffset]. It stands where [dateutil.parser.parse] does. *)
Definition parse (s : string) : res datetime :=
  let zone :=
    if (String.length s =? 25)%nat then
      sign ← String.get 19 s;
      h ← field 20 2 s;
      m ← field 23 2 s;
      let minutes := h * 60 + m in
      let minutes := if Ascii.eqb sign "-" then - minutes else minutes in
      Some {| utcoffset := Some minutes;
              offset_attr := Some (minutes * 60 * us_per_second) |}
    else None in
  match field 0 4 s, field 5 2 s, field 8 2 s,
        field 11 2 s, field 14 2 s, field 17 2 s with
  | Some y, Some mo, Some d, Some h, Some mi, Some sec =>
      if (String.length s =? 19)%nat || (String.length s =? 25)%nat
      then Ok (mk_datetime y mo d h mi sec 0 zone)
      else Raise ValueError
  | _, _, _, _, _, _ => Raise ValueError
  end.

(** A [tzoffset] five hours east of UTC, and [tzutc]. *)
Definition plus_five : tz :=
  {| utcoffset := Some 300; offset_attr := Some (300 * 60 * us_per_second) |}.
Definition utc : tz := {| utcoffset := Some 0; offset_attr := None |}.

Definition changeset (node utctimestamp timestamp raw_author : string)
    : gmap string string :=
  list_to_map [("node", node); ("utctimestamp", utctimestamp);
               ("timestamp", timestamp); ("raw_author", raw_author)].

Definition march : gmap string string :=
  changeset "c3" "2024-03-01T00:00:00" "2024-03-01T02:00:00"
    "A <a@example.com>".
Definition february : gmap string string :=
  changeset "c2" "2024-02-01T00:00:00" "2024-02-01T02:00:00"
    "A <a@example.com>".
Definition outsider : gmap string string :=
  changeset "c4" "2024-03-05T00:00:00" "2024-03-04T19:00:00"
    "B <b@elsewhere.org>".
Definition anonymous : gmap string string :=
  changeset "c5" "2024-03-06T00:00:00" "2024-03-06T00:00:00" "nobody".

Definition repo_a : gmap string string :=
  list_to_map [("slug", "repo-a"); ("last_updated", "2024-03-01T00:00:00")].

Definition key_a : string := "bitbucket-repo-a-pushed_at".

(** A history reply with the given changesets, and one without the field
    (what an error reply decodes to). *)
Definition page_of (changesets : list (gmap string string))
    : gmap string (list (gmap string string)) :=
  {[ "changesets" := changesets ]}.
Definition no_changesets : gmap string (list (gmap string string)) := ∅.

Definition idle : state :=
  {| post_queue := []; redis := ∅; trace := [] |}.

(** The store holds a checkpoint for repo-a. *)
Definition synced_in_january : state :=
  {| post_queue := [];
     redis := {[ key_a := "2024-01-01T00:00:00" ]};
     trace := [] |}.

Definition january : string := "2024-01-01T00:00:00".


Definition an_event (n : nat) : event :=
  {| ev_system := "bitbucket-commits"; ev_timestamp := "2024-03-01T00:00:00";
     ev_username := "a@example.com"; ev_data := "repo-a"; ev_is_utc := true;
     ev_tzinfo := PyStr.digits (N.of_nat n) |}.

Definition events (n : nat) : list event := an_event <$> seq 0 n.

(** One event waits in the queue. *)
Definition pending : state :=
  {| post_queue := [an_event 0]; redis := ∅; trace := [] |}.

(** An endpoint that accepts every batch, and one that refuses every batch. *)
Definition accepting (tr : list io) (body : list event) : res string :=
  Ok "OK".
Definition refusing (tr : list io) (body : list event) : res string :=
  Ok "Service Unavailable".

(** An upstream that answers every history request with the same page. *)
Definition always (p : gmap string (list (gmap string string)))
    (tr : list io) (url : string)
    : res (gmap string (list (gmap string string))) :=
  Ok p.

Definition lists (repos : list (gmap string string)) (tr : list io)
    (url : string) : res (list (gmap string string)) :=
  Ok repos.

(** A changeset without its local timestamp. *)
Definition truncated : gmap string string :=
  list_to_map [("node", "c6"); ("utctimestamp", "2024-03-07T00:00:00");
               ("raw_author", "A <a@example.com>")].

(** An upstream that answers the request that starts at c3 with one page and
    every other request with another. *)
Definition paged (first second : gmap string (list (gmap string string)))
    (tr : list io) (url : string)
    : res (gmap string (list (gmap string string))) :=
  if PyStr.endswith url "&start=c3" then Ok second else Ok first.

(** The store holds the checkpoint of repo-a and a key of another program. *)
Definition shared_store : state :=
  {| post_queue := [];
     redis := {[ key_a := "2024-01-01T00:00:00"; "sessions" := "42" ]};
     trace := [] |}.

End Sample.

Section BitbucketUpdate.

(** [dateutil.parser.parse]. *)
Variable parse : string -> res datetime.
(** [self.organization], [config.get("email-domain")]. *)
Variable organization : string.
Variable email_domain : string.
(** The decoded reply to a history request, given what was done before it. *)
Variable upstream : list io -> string -> res page.
(** The decoded reply to the listing request. *)
Variable listing : list io -> string -> res (list repo).
(** The body of the reply to a POST of the queue. *)
Variable endpoint : list io -> list event -> res string.

(** [self.redis.get(key)]. *)
Definition redis_get (key : string) : M (option string) :=
  fun st => (Ok (redis st !! key), st).

(** [self.redis.set(key, value)]. *)
Definition redis_set (key : string) (value : option string) : M unit :=
  fun st =>
    (Ok (),
     emit (RedisSet key value)
       (set_redis (<[key := redis_encode value]> (redis st)) st)).

(** [get_repositories]. *)
Definition get_repositories : M (list repo) :=
  fun st =>
    let url := "https://bitbucket.org/api/1.0/user/repositories" in
    (listing (trace st) url, emit (HttpGet url) st).

(** [get_commits]: the cursor goes into the URL when it is set and not
    empty. *)
Definition get_commits (repo_name : string) (last_commit : option string)
    : M page :=
  fun st =>
    let url := "https://bitbucket.org/api/1.0/repositories/" +:+ organization
               +:+ "/" +:+ repo_name +:+ "/changesets?limit=30" in
    let url :=
      match last_commit with
      | Some c => if String.eqb c "" then url else url +:+ "&start=" +:+ c
      | None => url
      end in
    (upstream (trace st) url, emit (HttpGet url) st).

(** [post]: [None] is no argument; the result is [False] or nothing. *)
Definition post (data : option event) : M (option bool) :=
  fun st =>
    let st :=
      match data with
      | Some e => set_post_queue (post_queue st ++ [e]) st
      | None => st
      end in
    if (100 <? length (post_queue st))%nat
       || ((0 <? length (post_queue st))%nat && bool_decide (data = None))
    then
      match endpoint (trace st) (post_queue st) with
      | Ok cont =>
          let st := emit (HttpPost (post_queue st)) st in
          if String.eqb cont "OK" then (Ok None, set_post_queue [] st)
          else (Ok (Some false), st)
      | Raise e => (Raise e, emit (HttpPost (post_queue st)) st)
      end
    else (Ok None, st).

Definition post_finished : M unit := _ ← post None; mret ().

(** One pass of the body of [for commit in commits["changesets"]]. *)
Definition scan_commit (name last_processed : string) (commit : commit)
    (last_processed_save : string) : M flow :=
  timestamp ← lift (getitem commit "utctimestamp");
  dt1 ← lift (getitem commit "utctimestamp" ≫= parse);
  dt2 ← lift (getitem commit "timestamp" ≫= parse);
  let tzinfo := get_tzinfo_from_dt dt1 dt2 in
  let last_processed_save :=
    if PyStr.gt timestamp last_processed_save then timestamp
    else last_processed_save in
  author ← lift (getitem commit "raw_author");
  if negb (PyStr.contains "<" author) then mret (Continue last_processed_save)
  else
    author ← lift (index (PyStr.split "<" author) 1);
    let author := PyStr.replace ">" "" author in
    if negb (PyStr.endswith author email_domain)
    then mret (Continue last_processed_save)
    else if PyStr.gt timestamp last_processed
    then
      _ ← post (Some {| ev_system := "bitbucket-commits";
                        ev_timestamp := timestamp; ev_username := author;
                        ev_data := name; ev_is_utc := true;
                        ev_tzinfo := tzinfo |});
      mret (Continue last_processed_save)
    else mret (Return last_processed_save).

(** The [for] loop over one page. *)
Fixpoint scan_page (name last_processed : string) (changesets : list commit)
    (last_processed_save : string) : M flow :=
  match changesets with
  | [] => mret (Continue last_processed_save)
  | commit :: rest =>
      r ← scan_commit name last_processed commit last_processed_save;
      match r with
      | Continue last_processed_save =>
          scan_page name last_processed rest last_processed_save
      | Return value => mret (Return value)
      end
  end.

(** The [while True] loop of [_process_repo], with [fuel] bounding the number
    of pages fetched: [None] when the fuel runs out first. A [break] leaves
    the loop for the end of the method, which returns Python's [None]. *)
Fixpoint process_repo_loop (fuel : nat) (name last_processed : string)
    (last_processed_save : string) (last_commit : option string)
    (st : state) : option (res (option string) * state) :=
  match fuel with
  | O => None
  | S fuel =>
      match get_commits name last_commit st with
      | (Raise e, st) => Some (Raise e, st)
      | (Ok commits, st) =>
          match commits !! "changesets" with
          | None => Some (Ok None, st)
          | Some changesets =>
              if (length changesets =? 0)%nat then Some (Ok None, st)
              else
                match index changesets 0 ≫= (λ c, getitem c "node") with
                | Raise e => Some (Raise e, st)
                | Ok last_commit =>
                    match scan_page name last_processed changesets
                            last_processed_save st with
                    | (Raise e, st) => Some (Raise e, st)
                    | (Ok (Return value), st) => Some (Ok (Some value), st)
                    | (Ok (Continue last_processed_save), st) =>
                        if (length changesets =? 1)%nat
                        then Some (Ok (Some last_processed_save), st)
                        else process_repo_loop fuel name last_processed
                               last_processed_save (Some last_commit) st
                    end
                end
          end
      end
  end.

(** [_process_repo(name, last_processed)]. *)
Definition _process_repo (fuel : nat) (name last_processed : string)
    (st : state) : option (res (option string) * state) :=
  process_repo_loop fuel name last_processed last_processed None st.

(** [last_processed >= last_change] in Python 2, where [None] is below every
    string. *)
Definition ge_last_change (last_processed : string)
    (last_change : option string) : bool :=
  match last_change with
  | Some c => PyStr.ge last_processed c
  | None => true
  end.

(** The checkpoint [process] starts a repository from: the stored value, or
    the epoch when there is none (or an empty one). *)
Definition checkpoint_or_epoch (stored : option string) : string :=
  match stored with
  | Some s => if String.eqb s "" then epoch else s
  | None => epoch
  end.

(** One pass of the body of [for repo in repositories]. *)
Definition process_one (fuel : nat) (repo : repo) (st : state)
    : option (res unit * state) :=
  let last_change := repo !! "last_updated" in
  match repo !! "slug" with
  | None => Some (Ok (), st)
  | Some name =>
      if String.eqb name "" then Some (Ok (), st)
      else
        let repo_key := "bitbucket-" +:+ name +:+ "-" in
        match redis_get (repo_key +:+ "pushed_at") st with
        | (Raise e, st) => Some (Raise e, st)
        | (Ok last_processed, st) =>
            let last_processed := checkpoint_or_epoch last_processed in
            if ge_last_change last_processed last_change then Some (Ok (), st)
            else
              match _process_repo fuel name last_processed st with
              | None => None
              | Some (Raise e, st) => Some (Raise e, st)
              | Some (Ok last_processed_save, st) =>
                  Some ((redis_set (repo_key +:+ "pushed_at")
                           last_processed_save
                         ≫= λ _, post_finished ≫= λ _, mret ()) st)
              end
        end
  end.

Fixpoint process_repos (fuel : nat) (repositories : list repo) (st : state)
    : option (res unit * state) :=
  match repositories with
  | [] => Some (Ok (), st)
  | repo :: rest =>
      match process_one fuel repo st with
      | None => None
      | Some (Raise e, st) => Some (Raise e, st)
      | Some (Ok _, st) => process_repos fuel rest st
      end
  end.

(** [process]. *)
Definition process (fuel : nat) (st : state) : option (res unit * state) :=
  match get_repositories st with
  | (Raise e, st) => Some (Raise e, st)
  | (Ok repositories, st) => process_repos fuel repositories st
  end.

(** ** The vocabulary of the statements *)

(** [max(best_seen, timestamp)] in the order on strings, as lines 90-91 of
    the source compute it. *)
Definition str_max (best_seen timestamp : string) : string :=
  if PyStr.gt timestamp best_seen then timestamp else best_seen.

(** The address [_process_repo] reads out of a raw author (lines 95-96):
    what stands between the first "<" and the next one, without any ">". *)
Definition author_email (raw_author : string) : string :=
  PyStr.replace ">" "" (nth 1 (PyStr.split "<" raw_author) "").

(** The two tests of lines 93 and 97: the raw author has a "<", and the
    address ends with the configured domain. *)
Definition passes_filter (raw_author : string) : bool :=
  PyStr.contains "<" raw_author
  && PyStr.endswith (author_email raw_author) email_domain.

(** The fields the loop body reads are there, and both timestamps parse. *)
Record readable (c : commit) (timestamp raw_author : string)
    (dt1 dt2 : datetime) : Prop := {
  has_utctimestamp : c !! "utctimestamp" = Some timestamp;
  utctimestamp_parses : parse timestamp = Ok dt1;
  has_timestamp : exists local, c !! "timestamp" = Some local /\ parse local = Ok dt2;
  has_raw_author : c !! "raw_author" = Some raw_author
}.

(** The dict of line 100. *)
Definition commit_event (name timestamp raw_author : string)
    (dt1 dt2 : datetime) : event :=
  {| ev_system := "bitbucket-commits"; ev_timestamp := timestamp;
     ev_username := author_email raw_author; ev_data := name;
     ev_is_utc := true; ev_tzinfo := get_tzinfo_from_dt dt1 dt2 |}.

(** An event was handed over between two states: it is the new last element
    of the queue, or of the body of a POST made since. *)
Definition emitted (ev : event) (st st' : state) : Prop :=
  post_queue st' = post_queue st ++ [ev]
  \/ trace st' = trace st ++ [HttpPost (post_queue st ++ [ev])].

(** Counting what was done. *)
Definition is_get (a : io) : bool :=
  match a with HttpGet _ => true | _ => false end.
Definition is_post (a : io) : bool :=
  match a with HttpPost _ => true | _ => false end.
Definition is_set (a : io) : bool :=
  match a with RedisSet _ _ => true | _ => false end.
Definition count (p : io -> bool) (tr : list io) : nat :=
  length (List.filter p tr).

(** [for e in events: self.post(e)]. *)
Fixpoint enqueue_all (events : list event) : M unit :=
  match events with
  | [] => mret ()
  | e :: rest => _ ← post (Some e); enqueue_all rest
  end.

(** The URL [get_commits] asks for. *)
Definition commits_url (repo_name : string) (last_commit : option string)
    : string :=
  let url := "https://bitbucket.org/api/1.0/repositories/" +:+ organization
             +:+ "/" +:+ repo_name +:+ "/changesets?limit=30" in
  match last_commit with
  | Some c => if String.eqb c "" then url else url +:+ "&start=" +:+ c
  | None => url
  end.

(** The running maximum a pass ends with. *)
Definition flow_value (r : flow) : string :=
  match r with
  | Continue v => v
  | Return v => v
  end.

(** Nothing but POSTs between two states, and the store untouched. *)
Definition only_posts (st st' : state) : Prop :=
  redis st' = redis st
  /\ count is_get (trace st') = count is_get (trace st)
  /\ count is_set (trace st') = count is_set (trace st).

(** The key [process] keeps a repository's checkpoint under. *)
Definition checkpoint_key (name : string) : string :=
  ("bitbucket-" +:+ name +:+ "-") +:+ "pushed_at".

(** The two characters [parse_timestamp_utc] cuts at. *)
Definition is_sign (c : ascii) : Prop := c = "+"%char \/ c = "-"%char.

(** What the loop body reads out of a commit before it looks at the author:
    the UTC timestamp, the raw author and the two parsed datetimes. [None]
    when a field is missing or a timestamp does not parse (the body then
    raises). *)
Definition decode (c : commit)
    : option (string * string * datetime * datetime) :=
  match c !! "utctimestamp", c !! "timestamp", c !! "raw_author" with
  | Some ts, Some local, Some a =>
      match parse ts, parse local with
      | Ok dt1, Ok dt2 => Some (ts, a, dt1, dt2)
      | _, _ => None
      end
  | _, _, _ => None
  end.

(** The [for] loop of lines 87-102 with [post] taken out: the events it hands
    over, in order, and how it ends. It stops at the first commit it cannot
    read. *)
Fixpoint page_outcome (name last_processed : string)
    (changesets : list commit) (best_seen : string) : list event * flow :=
  match changesets with
  | [] => ([], Continue best_seen)
  | c :: rest =>
      match decode c with
      | None => ([], Continue best_seen)
      | Some (ts, a, dt1, dt2) =>
          let best_seen := str_max best_seen ts in
          if negb (passes_filter a)
          then page_outcome name last_processed rest best_seen
          else if PyStr.gt ts last_processed
          then
            let '(events, r) :=
              page_outcome name last_processed rest best_seen in
            (commit_event name ts a dt1 dt2 :: events, r)
          else ([], Return best_seen)
      end
  end.

(** The events of a POST that the endpoint acknowledged: the whole body when
    the reply was "OK", none otherwise. [before] is what had been done when
    the request was made. *)
Definition acknowledged (before : list io) (body : list event)
    : list event :=
  match endpoint before body with
  | Ok cont => if String.eqb cont "OK" then body else []
  | Raise _ => []
  end.

(** The events acknowledged along a trace, oldest first. *)
Fixpoint delivered_from (before tr : list io) : list event :=
  match tr with
  | [] => []
  | a :: tr' =>
      match a with
      | HttpPost body => acknowledged before body
      | _ => []
      end ++ delivered_from (before ++ [a]) tr'
  end.

Definition delivered (tr : list io) : list event := delivered_from [] tr.

(** Every event handed to [post] so far that is not lost: the acknowledged
    ones, then the pending ones. *)
Definition ledger (st : state) : list event :=
  delivered (trace st) ++ post_queue st.

(** The endpoint answers every request. *)
Definition answers : Prop :=
  forall tr body, exists cont, endpoint tr body = Ok cont.

(** Unfolds the binds of [M] and [res]. *)
Ltac run :=
  unfold mbind, mret, M_bind, M_ret, res_bind, res_ret, lift; simpl.

(** * Properties *)

(** ** The order on strings *)

Section StringOrder.

Lemma gt_not_le (a b : string) : PyStr.gt a b = negb (PyStr.le a b).
Proof.
  unfold PyStr.gt, PyStr.le, String.ltb, String.leb.
  rewrite (String.compare_antisym a b).
  destruct (String.compare b a); reflexivity.
Qed.

Lemma lt_not_ge (a b : string) : PyStr.lt a b = negb (PyStr.ge a b).
Proof. apply (gt_not_le b a). Qed.

Lemma le_refl (a : string) : PyStr.le a a = true.
Proof. apply Is_true_true. exact (reflexivity (R := String.le) a). Qed.

Lemma le_trans (a b c : string) :
  PyStr.le a b = true -> PyStr.le b c = true -> PyStr.le a c = true.
Proof.
  intros Hab Hbc. apply Is_true_true.
  apply Is_true_true in Hab, Hbc.
  exact (transitivity (R := String.le) Hab Hbc).
Qed.

Lemma gt_le (a b : string) : PyStr.gt a b = true -> PyStr.le b a = true.
Proof.
  unfold PyStr.gt, PyStr.le, String.ltb, String.leb.
  destruct (String.compare b a); congruence.
Qed.

End StringOrder.

Lemma str_max_ge_l (a b : string) : PyStr.le a (str_max a b) = true.
Proof.
  unfold str_max. destruct (PyStr.gt b a) eqn:H.
  - apply gt_le, H.
  - apply le_refl.
Qed.

Lemma str_max_ge_r (a b : string) : PyStr.le b (str_max a b) = true.
Proof.
  unfold str_max. destruct (PyStr.gt b a) eqn:H.
  - apply le_refl.
  - rewrite gt_not_le in H. destruct (PyStr.le b a); [reflexivity|discriminate].
Qed.

(** ** One commit *)

Lemma split_nonempty (c : ascii) (s : string) : PyStr.split c s <> [].
Proof.
  destruct s as [|a s]; simpl; [discriminate|].
  destruct (Ascii.eqb a c); [discriminate|].
  destruct (PyStr.split c s); discriminate.
Qed.

Lemma split_contains (c : ascii) (s : string) :
  PyStr.contains c s = true ->
  exists h x t, PyStr.split c s = h :: x :: t.
Proof.
  induction s as [|a s IH]; simpl; [discriminate|].
  destruct (Ascii.eqb a c).
  - intros _. destruct (PyStr.split c s) as [|x t] eqn:E.
    + exfalso. exact (split_nonempty c s E).
    + eauto.
  - intros H. destruct (IH H) as (h & x & t & E). rewrite E. eauto.
Qed.

(** What the loop body does with a commit it can read. *)
Lemma scan_commit_readable name last_processed c ts a dt1 dt2 best_seen st :
  readable c ts a dt1 dt2 ->
  scan_commit name last_processed c best_seen st =
    if negb (passes_filter a) then (Ok (Continue (str_max best_seen ts)), st)
    else if PyStr.gt ts last_processed
    then (post (Some (commit_event name ts a dt1 dt2))
            ≫= λ _, mret (Continue (str_max best_seen ts))) st
    else (Ok (Return (str_max best_seen ts)), st).
Proof.
  intros [Hts Hp1 (l & Hl & Hp2) Ha].
  unfold scan_commit, getitem, passes_filter. run.
  rewrite Hts. simpl. rewrite Hp1, Hl. simpl. rewrite Hp2, Ha. simpl.
  fold (str_max best_seen ts).
  destruct (PyStr.contains "<" a) eqn:Hc; simpl; [|reflexivity].
  destruct (split_contains _ _ Hc) as (h & x & t & E).
  unfold commit_event, author_email, index. rewrite E. simpl.
  destruct (PyStr.endswith _ email_domain); simpl; [|reflexivity].
  destruct (PyStr.gt ts last_processed); reflexivity.
Qed.

(** ** The queue *)

Lemma post_some (e : event) (st : state) :
  post (Some e) st =
    let q := post_queue st ++ [e] in
    if (100 <? length q)%nat
    then
      match endpoint (trace st) q with
      | Ok cont =>
          if String.eqb cont "OK"
          then (Ok None, set_post_queue [] (emit (HttpPost q) (set_post_queue q st)))
          else (Ok (Some false), emit (HttpPost q) (set_post_queue q st))
      | Raise err => (Raise err, emit (HttpPost q) (set_post_queue q st))
      end
    else (Ok None, set_post_queue q st).
Proof.
  unfold post. simpl. rewrite andb_false_r, orb_false_r. reflexivity.
Qed.

Lemma enqueue_all_app (es es' : list event) (st : state) :
  enqueue_all (es ++ es') st = (enqueue_all es ≫= λ _, enqueue_all es') st.
Proof.
  revert st. induction es as [|e es IH]; intros st; [reflexivity|].
  simpl. run. destruct (post (Some e) st) as [[r|err] st1]; [|reflexivity].
  apply IH.
Qed.

Lemma enqueue_all_below (es : list event) : forall st,
  (length (post_queue st) + length es <= 100)%nat ->
  enqueue_all es st = (Ok (), set_post_queue (post_queue st ++ es) st).
Proof.
  induction es as [|e es IH]; intros st Hlen; simpl in *.
  - rewrite app_nil_r. destruct st; reflexivity.
  - run. rewrite post_some. simpl.
    assert (Hq : (100 <? length (post_queue st ++ [e]))%nat = false).
    { apply Nat.ltb_ge. rewrite length_app. simpl. lia. }
    rewrite Hq. rewrite IH.
    + simpl. rewrite <- app_assoc. reflexivity.
    + simpl. rewrite length_app. simpl. lia.
Qed.

Lemma count_app (p : io -> bool) (tr tr' : list io) :
  count p (tr ++ tr') = (count p tr + count p tr')%nat.
Proof. unfold count. rewrite List.filter_app, length_app. reflexivity. Qed.

(** C5. Flush threshold: [post(event)] makes the delivery call exactly when
    the queue, after the append, is longer than 100. So enqueuing up to 100
    events onto a queue that stays within 100 makes no call, and the 101st
    enqueue onto an empty queue makes exactly one, with all 101 events. *)
Theorem flush_threshold :
  (forall e st,
     trace (post (Some e) st).2 =
       if (100 <? length (post_queue st) + 1)%nat
       then trace st ++ [HttpPost (post_queue st ++ [e])]
       else trace st)
  /\ (forall es st,
        (length (post_queue st) + length es <= 100)%nat ->
        enqueue_all es st = (Ok (), set_post_queue (post_queue st ++ es) st))
  /\ (forall es e st,
        post_queue st = [] -> length es = 100%nat ->
        let st' := (enqueue_all (es ++ [e]) st).2 in
        trace st' = trace st ++ [HttpPost (es ++ [e])]
        /\ count is_post (trace st') = S (count is_post (trace st))).
Proof.
  split; [|split].
  - intros e st. rewrite post_some. simpl.
    rewrite length_app. simpl.
    destruct (100 <? length (post_queue st) + 1)%nat; [|reflexivity].
    destruct (endpoint _ _) as [cont|err]; [|reflexivity].
    destruct (String.eqb cont "OK"); reflexivity.
  - intros es st. apply enqueue_all_below.
  - intros es e st Hq Hlen st'.
    assert (Htr : trace st' = trace st ++ [HttpPost (es ++ [e])]).
    { subst st'. rewrite enqueue_all_app. run.
      rewrite enqueue_all_below by (rewrite Hq; simpl; lia).
      rewrite Hq. simpl. run. rewrite post_some. simpl.
      assert (Hlt : (100 <? length (es ++ [e]))%nat = true).
      { apply Nat.ltb_lt. rewrite length_app. simpl. lia. }
      rewrite Hlt.
      destruct (endpoint _ _) as [cont|err]; [|reflexivity].
      destruct (String.eqb cont "OK"); reflexivity. }
    split; [exact Htr|].
    rewrite Htr, count_app. unfold count at 2. simpl. lia.
Qed.

(** C6. Delivery acknowledgment: when [post] makes the delivery call and the
    endpoint answers, the queue is emptied if and only if the answer is the
    text "OK"; after any other answer the queue is the one that was sent. *)
Theorem delivery_acknowledgment (data : option event) (st : state)
    (cont : string) :
  let q := match data with
           | Some e => post_queue st ++ [e]
           | None => post_queue st
           end in
  (100 <? length q)%nat || ((0 <? length q)%nat && bool_decide (data = None))
    = true ->
  endpoint (trace st) q = Ok cont ->
  let st' := (post data st).2 in
  trace st' = trace st ++ [HttpPost q]
  /\ (post_queue st' = [] <-> cont = "OK")
  /\ (cont <> "OK" -> post_queue st' = q)
  /\ redis st' = redis st.
Proof.
  intros q Hflush Hcont st'. subst st'. unfold post.
  assert (Hq : post_queue (match data with
                           | Some e => set_post_queue (post_queue st ++ [e]) st
                           | None => st
                           end) = q) by (destruct data; reflexivity).
  assert (Ht : trace (match data with
                      | Some e => set_post_queue (post_queue st ++ [e]) st
                      | None => st
                      end) = trace st) by (destruct data; reflexivity).
  assert (Hr : redis (match data with
                      | Some e => set_post_queue (post_queue st ++ [e]) st
                      | None => st
                      end) = redis st) by (destruct data; reflexivity).
  simpl. rewrite Hq, Ht, Hflush, Hcont.
  assert (Hne : q <> []).
  { intros E. rewrite E in Hflush. simpl in Hflush. discriminate. }
  destruct (String.eqb_spec cont "OK") as [E|E]; simpl; rewrite ?Ht, ?Hq, ?Hr.
  - repeat split; congruence.
  - repeat split; congruence.
Qed.

(** ** What a scan leaves alone *)

Lemma only_posts_refl (st : state) : only_posts st st.
Proof. repeat split. Qed.

Lemma only_posts_trans (st1 st2 st3 : state) :
  only_posts st1 st2 -> only_posts st2 st3 -> only_posts st1 st3.
Proof. unfold only_posts. intuition congruence. Qed.

Lemma post_only_posts (data : option event) (st : state) :
  only_posts st (post data st).2.
Proof.
  unfold post, only_posts.
  destruct data as [e|]; simpl;
    repeat match goal with
           | |- context [if ?b then _ else _] => destruct b; simpl
           | |- context [match endpoint ?t ?q with _ => _ end] =>
               destruct (endpoint t q); simpl
           end;
    rewrite ?count_app; unfold count; simpl; repeat split; lia.
Qed.

Lemma scan_commit_only_posts name last_processed c best_seen st :
  only_posts st (scan_commit name last_processed c best_seen st).2.
Proof.
  unfold scan_commit. run.
  repeat match goal with
         | |- context [match ?x with _ => _ end] =>
             lazymatch x with
             | post _ _ => fail
             | _ => destruct x eqn:?; simpl
             end
         end; try apply only_posts_refl.
  all: match goal with
       | |- context [post ?d ?s] =>
           pose proof (post_only_posts d s) as H;
           destruct (post d s) as [[?|?] ?]
       end; exact H.
Qed.

Lemma scan_page_only_posts name last_processed cs : forall best_seen st,
  only_posts st (scan_page name last_processed cs best_seen st).2.
Proof.
  induction cs as [|c cs IH]; intros best_seen st; simpl.
  - apply only_posts_refl.
  - run. pose proof (scan_commit_only_posts name last_processed c best_seen st) as H.
    destruct (scan_commit name last_processed c best_seen st) as [[[v|v]|e] st1];
      simpl in *; try exact H.
    eapply only_posts_trans; [exact H|apply IH].
Qed.

(** The value a pass over one commit ends with, when it raises nothing. *)
Lemma scan_commit_value name last_processed c ts best_seen st r st' :
  c !! "utctimestamp" = Some ts ->
  scan_commit name last_processed c best_seen st = (Ok r, st') ->
  flow_value r = str_max best_seen ts.
Proof.
  intros Hts. unfold scan_commit, getitem. run. rewrite Hts. simpl.
  fold (str_max best_seen ts).
  repeat match goal with
         | |- context [match ?x with _ => _ end] =>
             lazymatch x with
             | post _ _ => fail
             | _ => destruct x eqn:?; simpl
             end
         end; try congruence;
    try (intros [= <- <-]; reflexivity).
  all: match goal with
       | |- context [post ?d ?s] => destruct (post d s) as [[?|?] ?]
       end; try congruence.
  all: intros [= <- <-]; reflexivity.
Qed.

(** One turn of the [while] loop. *)
Lemma loop_unfold fuel name last_processed best_seen cursor st :
  process_repo_loop (S fuel) name last_processed best_seen cursor st =
    let st1 := emit (HttpGet (commits_url name cursor)) st in
    match upstream (trace st) (commits_url name cursor) with
    | Raise e => Some (Raise e, st1)
    | Ok commits =>
        match commits !! "changesets" with
        | None | Some [] => Some (Ok None, st1)
        | Some (c :: cs) =>
            match getitem c "node" with
            | Raise e => Some (Raise e, st1)
            | Ok node =>
                match scan_page name last_processed (c :: cs) best_seen st1 with
                | (Raise e, st2) => Some (Raise e, st2)
                | (Ok (Return v), st2) => Some (Ok (Some v), st2)
                | (Ok (Continue v), st2) =>
                    match cs with
                    | [] => Some (Ok (Some v), st2)
                    | _ :: _ =>
                        process_repo_loop fuel name last_processed v
                          (Some node) st2
                    end
                end
            end
        end
    end.
Proof.
  unfold process_repo_loop; fold process_repo_loop.
  unfold get_commits. fold (commits_url name cursor).
  destruct (upstream _ _) as [commits|e]; [|reflexivity].
  destruct (commits !! "changesets") as [[|c cs]|]; try reflexivity.
  cbn [length Nat.eqb index lookup list_lookup mbind res_bind].
  destruct (getitem c "node") as [node|e]; [|reflexivity].
  destruct (scan_page _ _ _ _ _) as [[[v|v]|e] st']; try reflexivity.
  destruct cs; reflexivity.
Qed.

(** One turn of the [while] loop on a page that has changesets. *)
Lemma loop_step fuel name last_processed best_seen cursor st commits c cs node :
  upstream (trace st) (commits_url name cursor) = Ok commits ->
  commits !! "changesets" = Some (c :: cs) ->
  c !! "node" = Some node ->
  process_repo_loop (S fuel) name last_processed best_seen cursor st =
    match scan_page name last_processed (c :: cs) best_seen
            (emit (HttpGet (commits_url name cursor)) st) with
    | (Raise e, st') => Some (Raise e, st')
    | (Ok (Return v), st') => Some (Ok (Some v), st')
    | (Ok (Continue v), st') =>
        match cs with
        | [] => Some (Ok (Some v), st')
        | _ :: _ =>
            process_repo_loop fuel name last_processed v (Some node) st'
        end
    end.
Proof.
  intros Hup Hcs Hnode.
  rewrite loop_unfold. cbn zeta. rewrite Hup, Hcs.
  unfold getitem. rewrite Hnode. reflexivity.
Qed.

(** ** The per-repository sync *)

Lemma not_emitted_same (ev : event) (st : state) : ~ emitted ev st st.
Proof.
  intros [H|H]; apply (f_equal length) in H; rewrite length_app in H;
    simpl in H; lia.
Qed.

Lemma post_some_emitted (e : event) (st : state) :
  emitted e st (post (Some e) st).2.
Proof.
  rewrite post_some. unfold emitted. simpl.
  destruct (100 <? _)%nat; simpl; [|left; reflexivity].
  destruct (endpoint _ _) as [cont|err]; simpl; [|right; reflexivity].
  destruct (String.eqb cont "OK"); right; reflexivity.
Qed.

(** C3. Exclusive emission boundary: for a commit whose author passes the
    domain filter, the loop body hands an event to [post] if and only if the
    commit's UTC timestamp is strictly greater than the checkpoint the sync
    started with. Otherwise it changes nothing and returns the running
    maximum, which line 90 has already compared with this commit's
    timestamp; the rest of the page is not looked at, and [_process_repo]
    returns that value without another fetch. *)
Theorem exclusive_boundary name last_processed c ts a dt1 dt2 best_seen st :
  readable c ts a dt1 dt2 ->
  passes_filter a = true ->
  let ev := commit_event name ts a dt1 dt2 in
  (emitted ev st (scan_commit name last_processed c best_seen st).2
     <-> PyStr.gt ts last_processed = true)
  /\ (PyStr.gt ts last_processed = true ->
      scan_commit name last_processed c best_seen st =
        (post (Some ev) ≫= λ _, mret (Continue (str_max best_seen ts))) st)
  /\ (PyStr.gt ts last_processed = false ->
      forall rest,
        scan_page name last_processed (c :: rest) best_seen st =
          (Ok (Return (str_max best_seen ts)), st))
  /\ (PyStr.gt ts last_processed = false ->
      forall fuel cursor commits first before rest node seen0 st0,
        upstream (trace st0) (commits_url name cursor) = Ok commits ->
        commits !! "changesets" = Some (first :: before ++ c :: rest) ->
        first !! "node" = Some node ->
        scan_page name last_processed (first :: before) seen0
          (emit (HttpGet (commits_url name cursor)) st0)
          = (Ok (Continue best_seen), st) ->
        process_repo_loop (S fuel) name last_processed seen0 cursor st0 =
          Some (Ok (Some (str_max best_seen ts)), st)).
Proof.
  intros Hr Hf ev.
  pose proof (scan_commit_readable name last_processed c ts a dt1 dt2
                best_seen st Hr) as Hscan.
  rewrite Hf in Hscan. simpl in Hscan. fold ev in Hscan.
  assert (Hstop : PyStr.gt ts last_processed = false ->
                  forall rest,
                    scan_page name last_processed (c :: rest) best_seen st =
                      (Ok (Return (str_max best_seen ts)), st)).
  { intros Hle rest. simpl. run. rewrite Hscan, Hle. reflexivity. }
  split; [|split; [|split]].
  - rewrite Hscan. destruct (PyStr.gt ts last_processed) eqn:Hgt.
    + split; [reflexivity|]. intros _. run.
      pose proof (post_some_emitted ev st) as He.
      destruct (post (Some ev) st) as [[?|?] ?]; exact He.
    + split; [|discriminate]. intros He.
      exfalso. exact (not_emitted_same ev st He).
  - intros Hgt. rewrite Hscan, Hgt. reflexivity.
  - exact Hstop.
  - intros Hle fuel cursor commits first before rest node seen0 st0
      Hup Hcs Hnode Hbefore.
    rewrite (loop_step fuel name last_processed seen0 cursor st0 commits
               first (before ++ c :: rest) node Hup Hcs Hnode).
    assert (Hpage : forall l seen s,
              scan_page name last_processed (l ++ c :: rest) seen s =
                match scan_page name last_processed l seen s with
                | (Ok (Continue v), s') =>
                    scan_page name last_processed (c :: rest) v s'
                | other => other
                end).
    { induction l as [|x l IH]; intros seen s; [reflexivity|].
      simpl. run.
      destruct (scan_commit name last_processed x seen s) as [[[v|v]|e] s1];
        try reflexivity.
      apply IH. }
    rewrite (app_comm_cons before (c :: rest) first), Hpage, Hbefore.
    rewrite (Hstop Hle rest). reflexivity.
Qed.

(** C4. Domain filter: for a commit whose raw author has no "<", or whose
    address does not end with the configured domain, the loop body hands
    nothing to [post] and changes nothing; it goes on with the running
    maximum, which is the commit's UTC timestamp when that is greater than
    everything seen so far. *)
Theorem domain_filter name last_processed c ts a dt1 dt2 best_seen st :
  readable c ts a dt1 dt2 ->
  PyStr.contains "<" a = false
  \/ PyStr.endswith (author_email a) email_domain = false ->
  scan_commit name last_processed c best_seen st =
    (Ok (Continue (str_max best_seen ts)), st)
  /\ (forall ev,
        ~ emitted ev st (scan_commit name last_processed c best_seen st).2)
  /\ (PyStr.gt ts best_seen = true -> str_max best_seen ts = ts)
  /\ PyStr.le best_seen (str_max best_seen ts) = true
  /\ PyStr.le ts (str_max best_seen ts) = true.
Proof.
  intros Hr Hf.
  assert (Hp : passes_filter a = false).
  { unfold passes_filter. destruct Hf as [-> | ->]; [reflexivity|].
    apply andb_false_r. }
  pose proof (scan_commit_readable name last_processed c ts a dt1 dt2
                best_seen st Hr) as Hscan.
  rewrite Hp in Hscan. simpl in Hscan.
  split; [exact Hscan|]. split; [|split; [|split]].
  - intros ev. rewrite Hscan. apply not_emitted_same.
  - intros Hgt. unfold str_max. rewrite Hgt. reflexivity.
  - apply str_max_ge_l.
  - apply str_max_ge_r.
Qed.

(** C2, as the code has it. When the reply to a history request has no
    "changesets" field, or an empty list under it, the loop is left by
    [break] and the method ends without a [return]: the result is Python's
    [None], whatever the running maximum was, and not that maximum. *)
Theorem empty_page_returns_none fuel name last_processed best_seen cursor st
    commits :
  upstream (trace st) (commits_url name cursor) = Ok commits ->
  commits !! "changesets" = None \/ commits !! "changesets" = Some [] ->
  process_repo_loop (S fuel) name last_processed best_seen cursor st =
    Some (Ok None, emit (HttpGet (commits_url name cursor)) st)
  /\ (cursor = None -> best_seen = last_processed ->
      _process_repo (S fuel) name last_processed st =
        Some (Ok None, emit (HttpGet (commits_url name None)) st)).
Proof.
  intros Hup Hcs.
  assert (H : process_repo_loop (S fuel) name last_processed best_seen cursor st
              = Some (Ok None, emit (HttpGet (commits_url name cursor)) st)).
  { simpl. unfold get_commits. fold (commits_url name cursor). rewrite Hup.
    destruct Hcs as [-> | ->]; reflexivity. }
  split; [exact H|].
  intros -> ->. exact H.
Qed.

(** C8. Single-commit page: when a page holds exactly one commit and the
    pass over it raises nothing, [_process_repo] returns the running maximum
    (the larger of the one it had and the commit's UTC timestamp) with that
    one fetch and no other, whatever fuel is left. *)
Theorem single_commit_page fuel name last_processed best_seen cursor st
    commits c node ts r st' :
  upstream (trace st) (commits_url name cursor) = Ok commits ->
  commits !! "changesets" = Some [c] ->
  c !! "node" = Some node ->
  c !! "utctimestamp" = Some ts ->
  scan_commit name last_processed c best_seen
    (emit (HttpGet (commits_url name cursor)) st) = (Ok r, st') ->
  process_repo_loop (S fuel) name last_processed best_seen cursor st =
    Some (Ok (Some (str_max best_seen ts)), st')
  /\ count is_get (trace st') = S (count is_get (trace st)).
Proof.
  intros Hup Hcs Hnode Hts Hscan.
  rewrite (loop_step fuel name last_processed best_seen cursor st commits
             c [] node Hup Hcs Hnode).
  pose proof (scan_commit_value _ _ _ _ _ _ _ _ Hts Hscan) as Hv.
  pose proof (scan_commit_only_posts name last_processed c best_seen
                (emit (HttpGet (commits_url name cursor)) st)) as Hframe.
  rewrite Hscan in Hframe. destruct Hframe as (_ & Hg & _).
  split.
  - cbn [scan_page]. run. rewrite Hscan.
    destruct r as [v|v]; simpl in Hv; subst v; reflexivity.
  - cbn [snd] in Hg. rewrite Hg. cbn [emit trace]. rewrite count_app.
    unfold count at 2. simpl. lia.
Qed.

Lemma scan_commit_ge name last_processed c best_seen st r st' :
  scan_commit name last_processed c best_seen st = (Ok r, st') ->
  PyStr.le best_seen (flow_value r) = true.
Proof.
  intros Hscan. destruct (c !! "utctimestamp") as [ts|] eqn:Hts.
  - rewrite (scan_commit_value _ _ _ _ _ _ _ _ Hts Hscan).
    apply str_max_ge_l.
  - revert Hscan. unfold scan_commit, getitem. run. rewrite Hts. simpl.
    discriminate.
Qed.

Lemma scan_page_ge name last_processed cs : forall best_seen st r st',
  scan_page name last_processed cs best_seen st = (Ok r, st') ->
  PyStr.le best_seen (flow_value r) = true.
Proof.
  induction cs as [|c cs IH]; intros best_seen st r st'; simpl.
  - intros [= <- <-]. apply le_refl.
  - run.
    destruct (scan_commit name last_processed c best_seen st)
      as [[[v|v]|e] st1] eqn:Hc; try discriminate.
    + intros Hrest. apply (le_trans _ v).
      * exact (scan_commit_ge _ _ _ _ _ _ _ Hc).
      * exact (IH _ _ _ _ Hrest).
    + intros [= <- <-]. exact (scan_commit_ge _ _ _ _ _ _ _ Hc).
Qed.

(** Whenever the loop returns a string, it is at least the running maximum
    the loop was entered with. *)
Lemma process_repo_loop_ge fuel name last_processed :
  forall best_seen cursor st v st',
    process_repo_loop fuel name last_processed best_seen cursor st
      = Some (Ok (Some v), st') ->
    PyStr.le best_seen v = true.
Proof.
  induction fuel as [|fuel IH]; intros best_seen cursor st v st';
    [discriminate|].
  rewrite loop_unfold. cbn zeta.
  destruct (upstream _ _) as [commits|e]; [|discriminate].
  destruct (commits !! "changesets") as [[|c cs]|]; try discriminate.
  destruct (getitem c "node") as [node|e]; [|discriminate].
  destruct (scan_page name last_processed (c :: cs) best_seen _)
    as [[[w|w]|e] st2] eqn:Hpage; try discriminate.
  - pose proof (scan_page_ge _ _ _ _ _ _ _ Hpage) as Hw. simpl in Hw.
    destruct cs.
    + intros [= <- <-]. exact Hw.
    + intros Hrec. apply (le_trans _ w); [exact Hw|exact (IH _ _ _ _ _ Hrec)].
  - pose proof (scan_page_ge _ _ _ _ _ _ _ Hpage) as Hw. simpl in Hw.
    intros [= <- <-]. exact Hw.
Qed.

(** Whenever [_process_repo] returns a string, that string is at least the
    checkpoint it was called with. *)
Theorem returned_checkpoint_monotone fuel name last_processed st v st' :
  _process_repo fuel name last_processed st = Some (Ok (Some v), st') ->
  PyStr.le last_processed v = true.
Proof. apply process_repo_loop_ge. Qed.

(** The loop writes nothing to the store. *)
Lemma process_repo_loop_no_write fuel name last_processed :
  forall best_seen cursor st r st',
    process_repo_loop fuel name last_processed best_seen cursor st
      = Some (r, st') ->
    redis st' = redis st
    /\ count is_set (trace st') = count is_set (trace st).
Proof.
  induction fuel as [|fuel IH]; intros best_seen cursor st r st';
    [discriminate|].
  rewrite loop_unfold. cbn zeta.
  set (st1 := emit (HttpGet _) st).
  assert (H1 : redis st1 = redis st
               /\ count is_set (trace st1) = count is_set (trace st)).
  { split; [reflexivity|]. subst st1. cbn [emit trace].
    rewrite count_app. unfold count at 2. simpl. lia. }
  destruct (upstream _ _) as [commits|e]; [|intros [= <- <-]; exact H1].
  destruct (commits !! "changesets") as [[|c cs]|];
    try (intros [= <- <-]; exact H1).
  destruct (getitem c "node") as [node|e]; [|intros [= <- <-]; exact H1].
  pose proof (scan_page_only_posts name last_processed (c :: cs) best_seen st1)
    as (Hr & _ & Hs).
  destruct (scan_page name last_processed (c :: cs) best_seen st1)
    as [[[w|w]|e] st2]; cbn [snd] in Hr, Hs.
  - destruct cs.
    + intros [= <- <-]. destruct H1. split; congruence.
    + intros Hrec. destruct (IH _ _ _ _ _ Hrec), H1. split; congruence.
  - intros [= <- <-]. destruct H1. split; congruence.
  - intros [= <- <-]. destruct H1. split; congruence.
Qed.

Lemma bind_ret_snd {A B : Type} (m : M A) (x : B) (st : state) :
  ((m ≫= λ _, mret x) st).2 = (m st).2.
Proof. run. destruct (m st) as [[?|?] ?]; reflexivity. Qed.

Lemma post_finished_snd (st : state) : (post_finished st).2 = (post None st).2.
Proof. apply bind_ret_snd. Qed.

Lemma post_finished_trace (st : state) :
  trace (post_finished st).2 =
    trace st ++ match post_queue st with
                | [] => []
                | _ :: _ => [HttpPost (post_queue st)]
                end
  /\ redis (post_finished st).2 = redis st.
Proof.
  rewrite post_finished_snd. unfold post.
  destruct (post_queue st) as [|e q] eqn:Hq; simpl.
  - rewrite app_nil_r. split; reflexivity.
  - rewrite orb_true_r.
    destruct (endpoint _ _) as [cont|err]; simpl; [|split; reflexivity].
    destruct (String.eqb cont "OK"); split; reflexivity.
Qed.

(** C10. For a repository with a slug whose stored checkpoint is below its
    last_updated, once [_process_repo] has returned, [process] hands the
    returned value to [set] (whatever it is, Python's [None] included, which
    the client stores as the text None), and then calls [post_finished]: one
    write, and after it at most the one POST of the pending queue. *)
Theorem checkpoint_write_and_flush fuel repo st name last_change v st1 :
  repo !! "slug" = Some name ->
  name <> "" ->
  repo !! "last_updated" = Some last_change ->
  let key := checkpoint_key name in
  let last_processed := checkpoint_or_epoch (redis st !! key) in
  PyStr.lt last_processed last_change = true ->
  _process_repo fuel name last_processed st = Some (Ok v, st1) ->
  exists r st',
    process_one fuel repo st = Some (r, st')
    /\ (post_finished ≫= λ _, mret ())
         (emit (RedisSet key v)
            (set_redis (<[key := redis_encode v]> (redis st1)) st1))
       = (r, st')
    /\ trace st' =
         trace st1 ++ RedisSet key v
           :: match post_queue st1 with
              | [] => []
              | _ :: _ => [HttpPost (post_queue st1)]
              end
    /\ redis st' = <[key := redis_encode v]> (redis st)
    /\ count is_set (trace st') = S (count is_set (trace st)).
Proof.
  intros Hslug Hname Hlast key last_processed Hlt Hrun.
  destruct (process_repo_loop_no_write _ _ _ _ _ _ _ _ Hrun) as [Hredis Hsets].
  unfold process_one. rewrite Hslug, Hlast.
  destruct (String.eqb_spec name "") as [E|E]; [contradiction|].
  unfold redis_get. fold (checkpoint_key name). fold key. fold last_processed.
  unfold ge_last_change. rewrite lt_not_ge in Hlt.
  destruct (PyStr.ge last_processed last_change); [discriminate|].
  rewrite Hrun.
  set (st2 := emit (RedisSet key v)
                (set_redis (<[key := redis_encode v]> (redis st1)) st1)).
  destruct ((post_finished ≫= λ _, mret ()) st2) as [r st'] eqn:Hend.
  exists r, st'. split; [rewrite <- Hend; reflexivity|].
  split; [reflexivity|].
  assert (Hst' : st' = (post_finished st2).2).
  { rewrite <- (bind_ret_snd post_finished ()), Hend. reflexivity. }
  destruct (post_finished_trace st2) as [Ht Hr].
  rewrite <- Hst' in Ht, Hr. subst st2. cbn [emit set_redis trace redis post_queue] in Ht, Hr.
  rewrite <- app_assoc in Ht. split; [exact Ht|].
  split; [rewrite Hr, Hredis; reflexivity|].
  rewrite Ht, count_app, Hsets.
  destruct (post_queue st1); unfold count; simpl; lia.
Qed.

(** [post_finished] makes the delivery call exactly when something is
    pending, and sends the whole queue. *)
Theorem final_flush_when_pending (st : state) :
  trace (post_finished st).2 =
    trace st ++ match post_queue st with
                | [] => []
                | _ :: _ => [HttpPost (post_queue st)]
                end.
Proof. apply post_finished_trace. Qed.

(** The loop has no bound of its own: against an upstream that answers every
    request with the same page of two or more commits, none of which makes
    the scan return, no amount of fuel is enough. *)
Theorem never_returns_on_repeating_page name last_processed commits c c' cs
    node :
  (forall tr url, upstream tr url = Ok commits) ->
  commits !! "changesets" = Some (c :: c' :: cs) ->
  c !! "node" = Some node ->
  (forall best_seen st, exists best_seen' st',
     scan_page name last_processed (c :: c' :: cs) best_seen st
       = (Ok (Continue best_seen'), st')) ->
  forall fuel best_seen cursor st,
    process_repo_loop fuel name last_processed best_seen cursor st = None.
Proof.
  intros Hup Hcs Hnode Hscan.
  induction fuel as [|fuel IH]; intros best_seen cursor st; [reflexivity|].
  rewrite (loop_step fuel name last_processed best_seen cursor st commits
             c (c' :: cs) node (Hup _ _) Hcs Hnode).
  destruct (Hscan best_seen (emit (HttpGet (commits_url name cursor)) st))
    as (best_seen' & st' & ->).
  apply IH.
Qed.

(** ** The timestamp helpers *)

Section Timestamps.

Lemma contains_app (c : ascii) (s t : string) :
  PyStr.contains c (s +:+ t) = PyStr.contains c s || PyStr.contains c t.
Proof.
  induction s as [|a s IH]; simpl; [reflexivity|].
  destruct (Ascii.eqb a c); [reflexivity|exact IH].
Qed.

Lemma rsplit1_absent (c : ascii) (s : string) :
  PyStr.contains c s = false -> PyStr.rsplit1 c s = [s].
Proof.
  induction s as [|a s IH]; simpl; [reflexivity|].
  destruct (Ascii.eqb a c); [discriminate|].
  intros H. rewrite (IH H). reflexivity.
Qed.

Lemma rsplit1_last (c : ascii) (s t : string) :
  PyStr.contains c t = false ->
  PyStr.rsplit1 c (s +:+ String c t) = [s; t].
Proof.
  intros Ht. induction s as [|a s IH]; simpl.
  - rewrite (rsplit1_absent c t Ht), Ascii.eqb_refl. reflexivity.
  - rewrite IH. reflexivity.
Qed.

Lemma uint_no_sign (c : ascii) (u : Decimal.uint) :
  is_sign c -> PyStr.contains c (NilEmpty.string_of_uint u) = false.
Proof.
  intros [-> | ->]; induction u; simpl; auto.
Qed.

Lemma digits_no_sign (c : ascii) (n : N) :
  is_sign c -> PyStr.contains c (PyStr.digits n) = false.
Proof.
  intros Hc. unfold PyStr.digits, NilZero.string_of_uint.
  pose proof (uint_no_sign c (N.to_uint n) Hc) as H.
  destruct (N.to_uint n); try exact H.
  destruct Hc as [-> | ->]; reflexivity.
Qed.

Lemma zeros_no_sign (c : ascii) (n : nat) :
  is_sign c -> PyStr.contains c (PyStr.zeros n) = false.
Proof.
  intros [-> | ->]; induction n; simpl; auto.
Qed.

Lemma zfill_digits_no_sign (c : ascii) (w : nat) (n : N) :
  is_sign c -> PyStr.contains c (PyStr.zfill w (PyStr.digits n)) = false.
Proof.
  intros Hc. unfold PyStr.zfill.
  rewrite contains_app, zeros_no_sign, digits_no_sign by exact Hc.
  reflexivity.
Qed.

Lemma fmt_0d_no_plus (w : nat) (z : Z) :
  PyStr.contains "+" (PyStr.fmt_0d w z) = false.
Proof.
  unfold PyStr.fmt_0d. destruct (z <? 0); simpl;
    apply zfill_digits_no_sign; left; reflexivity.
Qed.

Lemma fmt_0d_no_sign (c : ascii) (w : nat) (z : Z) :
  is_sign c -> 0 <= z -> PyStr.contains c (PyStr.fmt_0d w z) = false.
Proof.
  intros Hc Hz. unfold PyStr.fmt_0d.
  destruct (Z.ltb_spec z 0); [lia|]. apply zfill_digits_no_sign, Hc.
Qed.

Lemma format_time_no_sign (c : ascii) (w : Z) :
  is_sign c -> PyStr.contains c (format_time w) = false.
Proof.
  intros Hc. unfold format_time. cbn zeta.
  assert (Hr : 0 <= w mod us_per_day < us_per_day)
    by (apply Z.mod_pos_bound; reflexivity).
  set (r := w mod us_per_day) in *.
  assert (Hs : 0 <= r / us_per_second) by (apply Z.div_pos; [lia|reflexivity]).
  assert (Hu : 0 <= r mod us_per_second < us_per_second)
    by (apply Z.mod_pos_bound; reflexivity).
  rewrite !contains_app.
  rewrite !(fmt_0d_no_sign c 2); try exact Hc.
  - destruct (r mod us_per_second =? 0).
    + destruct Hc as [-> | ->]; reflexivity.
    + rewrite contains_app, (fmt_0d_no_sign c 6) by (exact Hc || lia).
      destruct Hc as [-> | ->]; reflexivity.
  - apply Z.mod_pos_bound. lia.
  - apply Z.mod_pos_bound. lia.
  - apply Z.div_pos; lia.
Qed.

Lemma format_date_no_plus (w : Z) :
  PyStr.contains "+" (format_date w) = false.
Proof.
  unfold format_date. destruct (ord2ymd _) as [[y m] d].
  rewrite !contains_app, !fmt_0d_no_plus. reflexivity.
Qed.

Lemma dt_le_without_tzinfo (dt1 dt2 : datetime) :
  tzinfo dt1 = None -> tzinfo dt2 = None ->
  dt_le dt1 dt2 = Some (wall dt1 <=? wall dt2).
Proof. intros H1 H2. unfold dt_le, utcoffset_us. rewrite H1, H2. reflexivity. Qed.

(** C9, amended. [get_tzinfo_from_dt] drops whole days: when the wall-clock
    reading of [dt1] is not after that of [dt2] (the readings are what the
    function subtracts, the tzinfo taken off; for two datetimes without
    tzinfo this is [dt1 <= dt2]), moving [dt2] 24 hours later gives the same
    text. *)
Theorem whole_days_discarded (dt1 dt2 dt2' : datetime) :
  wall dt1 <= wall dt2 ->
  dt_add dt2 (td_of_hours 24) = Ok dt2' ->
  get_tzinfo_from_dt dt1 dt2' = get_tzinfo_from_dt dt1 dt2.
Proof.
  intros Hle Hadd. unfold dt_add in Hadd.
  destruct (_ && _); [|discriminate]. injection Hadd as <-.
  unfold get_tzinfo_from_dt, dt_diff, replace_tzinfo. cbn [wall].
  destruct (Z.ltb_spec (wall dt2 + td_of_hours 24 - wall dt1) 0) as [H|_];
    [unfold td_of_hours, us_per_second in H; lia|].
  destruct (Z.ltb_spec (wall dt2 - wall dt1) 0) as [H|_]; [lia|].
  assert (Hs : td_seconds (wall dt2 + td_of_hours 24 - wall dt1)
               = td_seconds (wall dt2 - wall dt1)).
  { unfold td_seconds, td_of_hours, us_per_second.
    replace (wall dt2 + 24 * 3600 * 1000000 - wall dt1)
      with (wall dt2 - wall dt1 + 86400 * 1000000) by lia.
    rewrite Z.div_add by lia.
    replace (86400) with (1 * 86400) at 1 by lia.
    apply Z_mod_plus_full. }
  rewrite Hs. reflexivity.
Qed.

Lemma append_assoc (s t u : string) : (s +:+ t) +:+ u = s +:+ t +:+ u.
Proof.
  induction s as [|a s IH]; [reflexivity|].
  change (String a ((s +:+ t) +:+ u) = String a (s +:+ t +:+ u)).
  rewrite IH. reflexivity.
Qed.

Lemma append_nil_r (s : string) : s +:+ "" = s.
Proof.
  induction s as [|a s IH]; [reflexivity|].
  change (String a (s +:+ "") = String a s).
  rewrite IH. reflexivity.
Qed.

Lemma month_day_range (n : Z) (leapyear : bool) :
  0 <= n < 365 ->
  1 <= (month_day n leapyear).1 <= 12 /\ 1 <= (month_day n leapyear).2 <= 31.
Proof.
  intros Hn.
  set (ok := fun k : nat =>
               let md := month_day (Z.of_nat k) leapyear in
               (1 <=? md.1) && (md.1 <=? 12) && (1 <=? md.2) && (md.2 <=? 31)).
  assert (Hall : forallb ok (seq 0 365) = true)
    by (destruct leapyear; vm_compute; reflexivity).
  rewrite forallb_forall in Hall.
  specialize (Hall (Z.to_nat n)).
  rewrite in_seq in Hall. unfold ok in Hall.
  rewrite Z2Nat.id in Hall by lia. cbn zeta in Hall.
  specialize (Hall ltac:(lia)).
  rewrite !andb_true_iff, !Z.leb_le in Hall. lia.
Qed.

Lemma ord2ymd_day (n : Z) : 1 <= (ord2ymd n).2 <= 31.
Proof.
  unfold ord2ymd. cbn zeta.
  destruct (_ || _); [simpl; lia|].
  match goal with
  | |- context [month_day ?k ?l] =>
      pose proof (month_day_range k l) as H; destruct (month_day k l) as [m d]
  end.
  simpl in *. apply H. apply Z.mod_pos_bound. lia.
Qed.

(** C7, as the code has it. For a timestamp without an offset, [str(parsed)]
    has no "+", so the second [rsplit] cuts at the last "-" of the text,
    the one before the day of the month: the offset string is "-", the day
    and the time of day, and never the empty string. *)
Theorem naive_offset_not_empty (time_str : string) (dt : datetime) :
  parse time_str = Ok dt ->
  tzinfo dt = None ->
  0 <= wall dt <= max_wall ->
  parse_timestamp_utc parse time_str =
    Ok (dt, "-" +:+ PyStr.fmt_0d 2 (ord2ymd (wall dt / us_per_day + 1)).2
              +:+ " " +:+ format_time (wall dt))
  /\ forall r, parse_timestamp_utc parse time_str = Ok r -> r.2 <> "".
Proof.
  intros Hparse Htz Hrange.
  assert (Hmain : parse_timestamp_utc parse time_str =
    Ok (dt, "-" +:+ PyStr.fmt_0d 2 (ord2ymd (wall dt / us_per_day + 1)).2
              +:+ " " +:+ format_time (wall dt))).
  { unfold parse_timestamp_utc. rewrite Hparse. cbn [mbind res_bind].
    pose proof (ord2ymd_day (wall dt / us_per_day + 1)) as Hday.
    set (tail := PyStr.fmt_0d 2 (ord2ymd (wall dt / us_per_day + 1)).2
                 +:+ " " +:+ format_time (wall dt)).
    assert (Htail : PyStr.contains "-" tail = false).
    { unfold tail. rewrite !contains_app.
      rewrite (fmt_0d_no_sign "-" 2) by first [right; reflexivity | lia].
      rewrite (format_time_no_sign "-") by (right; reflexivity).
      reflexivity. }
    assert (Hstr : exists head, str dt = head +:+ String "-" tail).
    { unfold str, format_date, tail. rewrite Htz.
      destruct (ord2ymd _) as [[y m] d]. cbn [snd].
      exists (PyStr.fmt_0d 4 y +:+ "-" +:+ PyStr.fmt_0d 2 m).
      rewrite append_nil_r, !append_assoc. reflexivity. }
    destruct Hstr as [head Hstr].
    assert (Hplus : PyStr.contains "+" (str dt) = false).
    { unfold str. rewrite Htz, !contains_app, format_date_no_plus.
      rewrite (format_time_no_sign "+") by (left; reflexivity). reflexivity. }
    rewrite (rsplit1_absent "+" _ Hplus). cbn [length Nat.eqb nth].
    rewrite Hstr, (rsplit1_last "-" head tail Htail). cbn [length Nat.eqb nth].
    rewrite Htz. cbn [mbind option_bind]. unfold dt_sub, dt_add.
    cbn [replace_tzinfo wall tzinfo].
    replace (wall dt + - 0) with (wall dt) by lia.
    destruct (Z.leb_spec 0 (wall dt)); [|lia].
    destruct (Z.leb_spec (wall dt) max_wall); [|lia].
    cbn [andb mbind res_bind mret res_ret].
    destruct dt as [w t]. simpl in Htz. subst t. reflexivity. }
  split; [exact Hmain|].
  intros r Hr. rewrite Hmain in Hr. injection Hr as <-. discriminate.
Qed.



(** ** More on the timestamp helpers *)

Lemma rsplit1_present (c : ascii) (s : string) :
  PyStr.contains c s = true -> exists h t, PyStr.rsplit1 c s = [h; t].
Proof.
  induction s as [|a s IH]; simpl; [discriminate|].
  destruct (PyStr.contains c s) eqn:Hs.
  - intros _. destruct (IH eq_refl) as (h & t & ->). eauto.
  - rewrite (rsplit1_absent c s Hs).
    destruct (Ascii.eqb a c); [eauto|discriminate].
Qed.

Lemma str_has_dash (dt : datetime) : PyStr.contains "-" (str dt) = true.
Proof.
  unfold str, format_date. destruct (ord2ymd _) as [[y m] d].
  rewrite !contains_app. cbn [PyStr.contains Ascii.eqb Bool.eqb].
  rewrite !orb_true_r. reflexivity.
Qed.

Lemma seconds_of_offset (h m s : Z) :
  0 <= h < 24 -> 0 <= m < 60 -> 0 <= s < 60 * us_per_second ->
  td_seconds ((h * 60 + m) * 60 * us_per_second + s) / 3600 = h
  /\ td_seconds ((h * 60 + m) * 60 * us_per_second + s) / 60 mod 60 = m.
Proof.
  unfold td_seconds, us_per_second. intros Hh Hm Hs.
  assert (Hq : ((h * 60 + m) * 60 * 1000000 + s) / 1000000
               = (h * 60 + m) * 60 + s / 1000000).
  { rewrite Z.add_comm, Z.div_add by lia. lia. }
  rewrite Hq.
  assert (Hs' : 0 <= s / 1000000 < 60).
  { split; [apply Z.div_pos; lia|]. apply Z.div_lt_upper_bound; lia. }
  set (k := s / 1000000) in *.
  rewrite (Z.mod_small ((h * 60 + m) * 60 + k)) by lia.
  assert (H60 : ((h * 60 + m) * 60 + k) / 60 = h * 60 + m).
  { rewrite Z.add_comm, Z.div_add by lia. rewrite (Z.div_small k) by lia. lia. }
  split.
  - replace 3600 with (60 * 60) by lia.
    rewrite <- Z.div_div by lia. rewrite H60.
    rewrite Z.add_comm, Z.div_add by lia. rewrite (Z.div_small m) by lia. lia.
  - rewrite H60, Z.add_comm, Z.mod_add by lia. apply Z.mod_small. lia.
Qed.

(** When the second datetime is [h] hours, [m] minutes and less than a
    minute more ahead of the first (less than a day in all), the text is "+",
    the hours and the minutes; when it is that much behind, the text is "-",
    the hours and the minutes. Seconds are cut off: a second behind reads
    "-00:00". *)
Theorem offset_rendering (dt1 dt2 : datetime) (h m s : Z) :
  0 <= h < 24 -> 0 <= m < 60 -> 0 <= s < 60 * us_per_second ->
  let d := (h * 60 + m) * 60 * us_per_second + s in
  (wall dt2 = wall dt1 + d ->
   get_tzinfo_from_dt dt1 dt2
     = "+" +:+ PyStr.fmt_0d 2 h +:+ ":" +:+ PyStr.fmt_0d 2 m)
  /\ (wall dt2 = wall dt1 - d -> 0 < d ->
      get_tzinfo_from_dt dt1 dt2
        = "-" +:+ PyStr.fmt_0d 2 h +:+ ":" +:+ PyStr.fmt_0d 2 m).
Proof.
  intros Hh Hm Hs d.
  destruct (seconds_of_offset h m s Hh Hm Hs) as [Hhours Hminutes].
  fold d in Hhours, Hminutes.
  assert (Hd : 0 <= d) by (unfold d, us_per_second in *; nia).
  unfold get_tzinfo_from_dt, dt_diff, replace_tzinfo. cbn [wall].
  split.
  - intros ->. replace (wall dt1 + d - wall dt1) with d by lia.
    destruct (Z.ltb_spec d 0); [lia|]. rewrite Hhours, Hminutes. reflexivity.
  - intros -> Hpos. replace (wall dt1 - d - wall dt1) with (- d) by lia.
    destruct (Z.ltb_spec (- d) 0); [|lia].
    rewrite Z.abs_opp, Z.abs_eq by lia.
    rewrite Hhours, Hminutes. reflexivity.
Qed.

(** Swapping the two datetimes swaps the sign and nothing else, and the
    tzinfo of either argument plays no part. *)
Theorem offset_sign_flip (dt1 dt2 : datetime) :
  wall dt1 < wall dt2 ->
  exists tail,
    get_tzinfo_from_dt dt1 dt2 = String "+" tail
    /\ get_tzinfo_from_dt dt2 dt1 = String "-" tail
    /\ forall t1 t2,
         get_tzinfo_from_dt (replace_tzinfo dt1 t1) (replace_tzinfo dt2 t2)
         = String "+" tail.
Proof.
  intros Hlt.
  exists (PyStr.fmt_0d 2 (td_seconds (wall dt2 - wall dt1) / 3600) +:+ ":"
          +:+ PyStr.fmt_0d 2 (td_seconds (wall dt2 - wall dt1) / 60 mod 60)).
  unfold get_tzinfo_from_dt, dt_diff, replace_tzinfo. cbn [wall].
  destruct (Z.ltb_spec (wall dt2 - wall dt1) 0); [lia|].
  destruct (Z.ltb_spec (wall dt1 - wall dt2) 0); [|lia].
  replace (Z.abs (wall dt1 - wall dt2)) with (wall dt2 - wall dt1) by lia.
  repeat split.
Qed.

(** Whatever the parser returns, the offset string that comes back is not
    empty: it starts with "+" or with "-". The [else] of line 37 is never
    taken, because the text of a datetime always has the dashes of its
    date. *)
Theorem offset_string_never_empty (time_str : string)
    (r : datetime * string) :
  parse_timestamp_utc parse time_str = Ok r ->
  exists c tail, r.2 = String c tail /\ is_sign c.
Proof.
  unfold parse_timestamp_utc.
  destruct (parse time_str) as [dt|e]; [|discriminate].
  cbn [mbind res_bind].
  assert (Hcut : exists c tail,
             (let '(offset_str, prefix) :=
                if (length (PyStr.rsplit1 "+" (str dt)) =? 1)%nat
                then (PyStr.rsplit1 "-"
                        (nth 0 (PyStr.rsplit1 "+" (str dt)) ""), "-")
                else (PyStr.rsplit1 "+" (str dt), "+") in
              if (length offset_str =? 2)%nat
              then prefix +:+ nth 1 offset_str ""
              else "") = String c tail /\ is_sign c).
  { destruct (PyStr.contains "+" (str dt)) eqn:Hplus.
    - destruct (rsplit1_present "+" _ Hplus) as (h & t & ->).
      exists "+"%char, t. split; [reflexivity|left; reflexivity].
    - rewrite (rsplit1_absent "+" _ Hplus). cbn [length Nat.eqb nth].
      destruct (rsplit1_present "-" _ (str_has_dash dt)) as (h & t & ->).
      exists "-"%char, t. split; [reflexivity|right; reflexivity]. }
  destruct Hcut as (c & tail & Hcut & Hc). cbn zeta in Hcut |- *.
  destruct (if (length (PyStr.rsplit1 "+" (str dt)) =? 1)%nat then _ else _)
    as [offset_str prefix].
  rewrite Hcut.
  destruct (dt_sub _ _) as [dt'|e]; [|discriminate].
  intros [= <-]. exists c, tail. split; [reflexivity|exact Hc].
Qed.


End Timestamps.


(** ** What is handed over is never lost *)

Section Ledger.

Lemma delivered_from_app (t1 : list io) : forall before t2,
  delivered_from before (t1 ++ t2)
  = delivered_from before t1 ++ delivered_from (before ++ t1) t2.
Proof.
  induction t1 as [|a t1 IH]; intros before t2; simpl.
  - rewrite app_nil_r. reflexivity.
  - rewrite IH, <- !app_assoc. reflexivity.
Qed.

Lemma delivered_snoc (tr : list io) (a : io) :
  delivered (tr ++ [a])
  = delivered tr ++ match a with
                    | HttpPost body => acknowledged tr body
                    | _ => []
                    end.
Proof.
  unfold delivered. rewrite delivered_from_app. simpl.
  rewrite app_nil_r. reflexivity.
Qed.

Lemma ledger_emit_get (url : string) (st : state) :
  ledger (emit (HttpGet url) st) = ledger st.
Proof.
  unfold ledger. cbn [emit trace post_queue].
  rewrite delivered_snoc, app_nil_r. reflexivity.
Qed.

Lemma ledger_emit_set (key : string) (v : option string)
    (r : gmap string string) (st : state) :
  ledger (emit (RedisSet key v) (set_redis r st)) = ledger st.
Proof.
  unfold ledger. cbn [emit set_redis trace post_queue].
  rewrite delivered_snoc, app_nil_r. reflexivity.
Qed.

Lemma post_ledger (data : option event) (st : state) :
  ledger (post data st).2
  = ledger st ++ match data with Some e => [e] | None => [] end.
Proof.
  unfold post, ledger.
  set (st0 := match data with
              | Some e => set_post_queue (post_queue st ++ [e]) st
              | None => st
              end).
  assert (Hq : post_queue st0
               = post_queue st ++ match data with Some e => [e] | None => [] end)
    by (destruct data; [reflexivity|symmetry; apply app_nil_r]).
  assert (Ht : trace st0 = trace st) by (destruct data; reflexivity).
  cbn zeta.
  destruct (_ || _).
  - unfold acknowledged.
    destruct (endpoint (trace st0) (post_queue st0)) as [cont|err] eqn:He.
    + destruct (String.eqb cont "OK") eqn:Hok;
        cbn [snd emit set_post_queue trace post_queue];
        rewrite delivered_snoc; unfold acknowledged;
        rewrite He, Hok, Ht, Hq, ?app_nil_r, <- ?app_assoc; reflexivity.
    + cbn [snd emit trace post_queue]. rewrite delivered_snoc.
      unfold acknowledged. rewrite He, Ht, Hq, app_nil_r, <- ?app_assoc.
      reflexivity.
  - cbn [snd]. rewrite Ht, Hq, <- ?app_assoc. reflexivity.
Qed.

(** However the endpoint behaves, [post] loses nothing and repeats nothing:
    the events acknowledged so far followed by the pending ones are, after
    the call, what they were before it, with the new event at the end. *)
Theorem post_conserves_events (data : option event) (st : state) :
  delivered (trace (post data st).2) ++ post_queue (post data st).2
  = delivered (trace st) ++ post_queue st
    ++ match data with Some e => [e] | None => [] end.
Proof. rewrite app_assoc. apply post_ledger. Qed.

Lemma post_answers (data : option event) (st : state) :
  answers -> exists r, (post data st).1 = Ok r.
Proof.
  intros Ha. unfold post. cbn zeta.
  destruct (_ || _); [|eexists; reflexivity].
  match goal with
  | |- context [endpoint ?t ?q] => destruct (Ha t q) as [cont ->]
  end.
  destruct (String.eqb cont "OK"); eexists; reflexivity.
Qed.

Lemma decode_readable (c : commit) ts a dt1 dt2 :
  decode c = Some (ts, a, dt1, dt2) -> readable c ts a dt1 dt2.
Proof.
  unfold decode.
  destruct (c !! "utctimestamp") as [ts'|] eqn:H1; [|discriminate].
  destruct (c !! "timestamp") as [local|] eqn:H2; [|discriminate].
  destruct (c !! "raw_author") as [a'|] eqn:H3; [|discriminate].
  destruct (parse ts') as [d1|] eqn:H4; [|discriminate].
  destruct (parse local) as [d2|] eqn:H5; [|discriminate].
  intros [= <- <- <- <-]. split; eauto.
Qed.

Lemma scan_page_ledger name last_processed cs :
  answers ->
  Forall (fun c => is_Some (decode c)) cs ->
  forall best_seen st,
  exists st',
    scan_page name last_processed cs best_seen st
      = (Ok (page_outcome name last_processed cs best_seen).2, st')
    /\ ledger st'
       = ledger st ++ (page_outcome name last_processed cs best_seen).1.
Proof.
  intros Ha Hall. induction Hall as [|c cs [[[[ts a] dt1] dt2] Hc] _ IH];
    intros best_seen st.
  - exists st. split; [reflexivity|]. simpl. rewrite app_nil_r. reflexivity.
  - cbn [scan_page page_outcome]. rewrite Hc.
    unfold mbind at 1. unfold M_bind.
    rewrite (scan_commit_readable name last_processed c ts a dt1 dt2
               best_seen st (decode_readable _ _ _ _ _ Hc)).
    destruct (negb (passes_filter a)).
    + apply IH.
    + destruct (PyStr.gt ts last_processed).
      * unfold mbind, mret, M_bind, M_ret.
        pose proof (post_ledger
                      (Some (commit_event name ts a dt1 dt2)) st) as Hl.
        destruct (post_answers
                    (Some (commit_event name ts a dt1 dt2)) st Ha) as [r Hr].
        destruct (post (Some (commit_event name ts a dt1 dt2)) st)
          as [r' st1]. cbn [fst snd] in Hl, Hr. subst r'.
        destruct (IH (str_max best_seen ts) st1) as (st' & Hs & Hl').
        exists st'. rewrite Hs.
        destruct (page_outcome name last_processed cs (str_max best_seen ts))
          as [events fl]. cbn [fst snd] in *.
        split; [reflexivity|]. rewrite Hl', Hl, <- app_assoc. reflexivity.
      * exists st. split; [reflexivity|]. simpl. rewrite app_nil_r.
        reflexivity.
Qed.

(** With an endpoint that answers, a scan of a page whose commits can all be
    read ends as the loop without [post] does, and the events that loop
    hands over are added, in page order, to the acknowledged and pending
    events: one per commit that passes the filter and is newer than the
    checkpoint, none after the first that passes and is not. *)
Theorem scan_page_hands_over name last_processed cs best_seen st :
  answers ->
  Forall (fun c => is_Some (decode c)) cs ->
  exists st',
    scan_page name last_processed cs best_seen st
      = (Ok (page_outcome name last_processed cs best_seen).2, st')
    /\ delivered (trace st') ++ post_queue st'
       = (delivered (trace st) ++ post_queue st)
         ++ (page_outcome name last_processed cs best_seen).1
    /\ redis st' = redis st.
Proof.
  intros Ha Hall.
  destruct (scan_page_ledger name last_processed cs Ha Hall best_seen st)
    as (st' & Hs & Hl).
  exists st'. split; [exact Hs|]. split; [exact Hl|].
  pose proof (scan_page_only_posts name last_processed cs best_seen st) as H.
  rewrite Hs in H. apply H.
Qed.

End Ledger.

(** ** Errors, skips and what [process] leaves alone *)

Section Orchestrator.

(** A commit that lacks a field the loop body reads, or whose UTC or local
    timestamp the parser refuses, makes the body raise before it looks at
    the author:
    [KeyError] of the missing key, or the parser's exception. Nothing is
    handed to [post]. A first changeset without "node" makes
    [_process_repo] raise before any commit is scanned. *)
Theorem missing_field_raises name last_processed c best_seen st :
  (c !! "utctimestamp" = None ->
   scan_commit name last_processed c best_seen st
     = (Raise (KeyError "utctimestamp"), st))
  /\ (forall ts e,
        c !! "utctimestamp" = Some ts -> parse ts = Raise e ->
        scan_commit name last_processed c best_seen st = (Raise e, st))
  /\ (forall ts dt1,
        c !! "utctimestamp" = Some ts -> parse ts = Ok dt1 ->
        c !! "timestamp" = None ->
        scan_commit name last_processed c best_seen st
          = (Raise (KeyError "timestamp"), st))
  /\ (forall ts dt1 local e,
        c !! "utctimestamp" = Some ts -> parse ts = Ok dt1 ->
        c !! "timestamp" = Some local -> parse local = Raise e ->
        scan_commit name last_processed c best_seen st = (Raise e, st))
  /\ (forall ts dt1 local dt2,
        c !! "utctimestamp" = Some ts -> parse ts = Ok dt1 ->
        c !! "timestamp" = Some local -> parse local = Ok dt2 ->
        c !! "raw_author" = None ->
        scan_commit name last_processed c best_seen st
          = (Raise (KeyError "raw_author"), st))
  /\ (forall fuel cursor commits cs,
        upstream (trace st) (commits_url name cursor) = Ok commits ->
        commits !! "changesets" = Some (c :: cs) ->
        c !! "node" = None ->
        process_repo_loop (S fuel) name last_processed best_seen cursor st
          = Some (Raise (KeyError "node"),
                  emit (HttpGet (commits_url name cursor)) st)).
Proof.
  repeat split.
  - intros H. unfold scan_commit, getitem. run. rewrite H. reflexivity.
  - intros ts e H1 H2. unfold scan_commit, getitem. run.
    rewrite H1. simpl. rewrite H2. reflexivity.
  - intros ts dt1 H1 H2 H3. unfold scan_commit, getitem. run.
    rewrite H1. simpl. rewrite H2, H3. reflexivity.
  - intros ts dt1 local e H1 H2 H3 H4. unfold scan_commit, getitem. run.
    rewrite H1. simpl. rewrite H2, H3. simpl. rewrite H4. reflexivity.
  - intros ts dt1 local dt2 H1 H2 H3 H4 H5. unfold scan_commit, getitem. run.
    rewrite H1. simpl. rewrite H2, H3. simpl. rewrite H4, H5. reflexivity.
  - intros fuel cursor commits cs Hup Hcs Hnode.
    rewrite loop_unfold. cbn zeta. rewrite Hup, Hcs. unfold getitem.
    rewrite Hnode. reflexivity.
Qed.

Lemma process_one_run fuel repo st name :
  repo !! "slug" = Some name ->
  name <> "" ->
  let key := checkpoint_key name in
  let last_processed := checkpoint_or_epoch (redis st !! key) in
  ge_last_change last_processed (repo !! "last_updated") = false ->
  process_one fuel repo st =
    match _process_repo fuel name last_processed st with
    | None => None
    | Some (Raise e, st1) => Some (Raise e, st1)
    | Some (Ok v, st1) =>
        Some ((post_finished ≫= λ _, mret ())
                (emit (RedisSet key v)
                   (set_redis (<[key := redis_encode v]> (redis st1)) st1)))
    end.
Proof.
  intros Hslug Hname key last_processed Hge.
  unfold process_one. rewrite Hslug.
  destruct (String.eqb_spec name "") as [E|E]; [contradiction|].
  unfold redis_get. fold (checkpoint_key name). fold key. fold last_processed.
  rewrite Hge.
  destruct (_process_repo fuel name last_processed st) as [[[v|e] st1]|];
    reflexivity.
Qed.


Lemma process_one_skip fuel repo st :
  match repo !! "slug" with
  | None => True
  | Some name =>
      name = ""
      \/ ge_last_change
           (checkpoint_or_epoch (redis st !! checkpoint_key name))
           (repo !! "last_updated") = true
  end ->
  process_one fuel repo st = Some (Ok (), st).
Proof.
  unfold process_one. destruct (repo !! "slug") as [name|]; [|reflexivity].
  destruct (String.eqb_spec name "") as [E|E]; [reflexivity|].
  intros [H|H]; [contradiction|].
  unfold redis_get. fold (checkpoint_key name). rewrite H. reflexivity.
Qed.

(** The loop makes at least one request before it ends, however it ends. *)
Lemma process_repo_loop_fetches fuel name last_processed :
  forall best_seen cursor st r st',
    process_repo_loop fuel name last_processed best_seen cursor st
      = Some (r, st') ->
    (count is_get (trace st) < count is_get (trace st'))%nat.
Proof.
  induction fuel as [|fuel IH]; intros best_seen cursor st r st';
    [discriminate|].
  rewrite loop_unfold. cbn zeta.
  set (st1 := emit (HttpGet _) st).
  assert (H1 : count is_get (trace st1) = S (count is_get (trace st))).
  { subst st1. cbn [emit trace]. rewrite count_app. unfold count at 2.
    simpl. lia. }
  destruct (upstream _ _) as [commits|e]; [|intros [= <- <-]; lia].
  destruct (commits !! "changesets") as [[|c cs]|];
    try (intros [= <- <-]; lia).
  destruct (getitem c "node") as [node|e]; [|intros [= <- <-]; lia].
  pose proof (scan_page_only_posts name last_processed (c :: cs) best_seen st1)
    as (_ & Hg & _).
  destruct (scan_page name last_processed (c :: cs) best_seen st1)
    as [[[w|w]|e] st2]; cbn [snd] in Hg.
  - destruct cs.
    + intros [= <- <-]. lia.
    + intros Hrec. pose proof (IH _ _ _ _ _ Hrec). lia.
  - intros [= <- <-]. lia.
  - intros [= <- <-]. lia.
Qed.

(** [process] leaves a repository alone, without a request or a write,
    exactly when the descriptor has no slug or an empty one, or has no
    last_updated, or its last_updated is not above the checkpoint (the
    stored one, or the epoch). *)
Theorem skipped_exactly_when fuel repo st :
  (repo !! "slug" = None
   \/ repo !! "slug" = Some ""
   \/ repo !! "last_updated" = None
   \/ exists name last_change,
        repo !! "slug" = Some name
        /\ repo !! "last_updated" = Some last_change
        /\ PyStr.le last_change
             (checkpoint_or_epoch (redis st !! checkpoint_key name))
           = true)
  <-> process_one fuel repo st = Some (Ok (), st).
Proof.
  split.
  - intros H. apply process_one_skip.
    destruct (repo !! "slug") as [name|] eqn:Hslug; [|exact I].
    destruct H as [H|[H|[H|(name' & lc & H1 & H2 & H3)]]].
    + discriminate.
    + left. congruence.
    + right. rewrite H. reflexivity.
    + right. injection H1 as <-. rewrite H2. exact H3.
  - intros Hrun.
    destruct (repo !! "slug") as [name|] eqn:Hslug; [|left; reflexivity].
    destruct (String.eqb_spec name "") as [E|E];
      [right; left; congruence|].
    destruct (repo !! "last_updated") as [lc|] eqn:Hlast;
      [|right; right; left; reflexivity].
    right; right; right. exists name, lc.
    split; [reflexivity|]. split; [reflexivity|].
    destruct (PyStr.le lc
                (checkpoint_or_epoch (redis st !! checkpoint_key name)))
      eqn:Hle; [reflexivity|exfalso].
    rewrite (process_one_run fuel repo st name Hslug E) in Hrun
      by (rewrite Hlast; exact Hle).
    destruct (_process_repo fuel name _ st) as [[[v|e] st1]|] eqn:Hsync;
      try discriminate.
    pose proof (process_repo_loop_fetches _ _ _ _ _ _ _ _ Hsync) as Hg.
    injection Hrun as Hrun.
    set (st2 := emit (RedisSet (checkpoint_key name) v)
                  (set_redis
                     (<[checkpoint_key name := redis_encode v]> (redis st1))
                     st1))
      in Hrun.
    assert (Hst : st = (post_finished st2).2).
    { rewrite <- (bind_ret_snd post_finished ()), Hrun. reflexivity. }
    pose proof (post_only_posts None st2) as (_ & Hg2 & _).
    rewrite <- post_finished_snd, <- Hst in Hg2.
    subst st2. cbn [emit set_redis trace] in Hg2.
    rewrite count_app in Hg2. unfold count at 3 in Hg2. simpl in Hg2. lia.
Qed.

(** When the sync of a repository raises, [process] stops there: the
    exception comes out, nothing has been written to the store, and the
    repositories listed after it are not visited. *)
Theorem failed_sync_aborts_run fuel repo rest st name last_change e st1 :
  repo !! "slug" = Some name ->
  name <> "" ->
  repo !! "last_updated" = Some last_change ->
  let last_processed :=
    checkpoint_or_epoch (redis st !! checkpoint_key name) in
  PyStr.lt last_processed last_change = true ->
  _process_repo fuel name last_processed st = Some (Raise e, st1) ->
  process_repos fuel (repo :: rest) st = Some (Raise e, st1)
  /\ redis st1 = redis st
  /\ count is_set (trace st1) = count is_set (trace st).
Proof.
  intros Hslug Hname Hlast last_processed Hlt Hsync.
  assert (Hge : ge_last_change last_processed (repo !! "last_updated") = false).
  { rewrite Hlast. unfold ge_last_change. rewrite lt_not_ge in Hlt.
    destruct (PyStr.ge last_processed last_change); [discriminate|reflexivity]. }
  split.
  - cbn [process_repos].
    rewrite (process_one_run fuel repo st name Hslug Hname Hge).
    fold last_processed. rewrite Hsync. reflexivity.
  - exact (process_repo_loop_no_write _ _ _ _ _ _ _ _ Hsync).
Qed.

Lemma process_one_frame fuel repo st r st' :
  process_one fuel repo st = Some (r, st') ->
  redis st' = redis st
  \/ exists name v,
       repo !! "slug" = Some name
       /\ redis st' = <[checkpoint_key name := redis_encode v]> (redis st).
Proof.
  destruct (repo !! "slug") as [name|] eqn:Hslug.
  2:{ rewrite (process_one_skip fuel repo st) by (rewrite Hslug; exact I).
      intros [= <- <-]. left. reflexivity. }
  destruct (String.eqb_spec name "") as [E|E].
  { rewrite (process_one_skip fuel repo st)
      by (rewrite Hslug; left; exact E).
    intros [= <- <-]. left. reflexivity. }
  destruct (ge_last_change
              (checkpoint_or_epoch (redis st !! checkpoint_key name))
              (repo !! "last_updated")) eqn:Hge.
  { rewrite (process_one_skip fuel repo st)
      by (rewrite Hslug; right; exact Hge).
    intros [= <- <-]. left. reflexivity. }
  rewrite (process_one_run fuel repo st name Hslug E Hge).
  destruct (_process_repo fuel name _ st) as [[[v|e] st1]|] eqn:Hsync;
    try discriminate.
  - destruct (process_repo_loop_no_write _ _ _ _ _ _ _ _ Hsync) as [Hr _].
    intros [= Hend]. right. exists name, v. split; [reflexivity|].
    set (st2 := emit (RedisSet (checkpoint_key name) v)
                  (set_redis
                     (<[checkpoint_key name := redis_encode v]> (redis st1))
                     st1))
      in Hend.
    assert (Hst : st' = (post_finished st2).2).
    { rewrite <- (bind_ret_snd post_finished ()), Hend. reflexivity. }
    rewrite Hst. destruct (post_finished_trace st2) as [_ ->].
    subst st2. cbn [emit set_redis redis]. rewrite Hr. reflexivity.
  - destruct (process_repo_loop_no_write _ _ _ _ _ _ _ _ Hsync) as [Hr _].
    intros [= <- <-]. left. exact Hr.
Qed.

Lemma process_repos_frame fuel repos : forall st r st' k,
  process_repos fuel repos st = Some (r, st') ->
  (forall repo name,
     In repo repos -> repo !! "slug" = Some name -> k <> checkpoint_key name) ->
  redis st' !! k = redis st !! k.
Proof.
  induction repos as [|repo rest IH]; intros st r st' k; cbn [process_repos].
  - intros [= <- <-] _. reflexivity.
  - intros Hrun Hk.
    destruct (process_one fuel repo st) as [[r1 st1]|] eqn:Hone;
      [|discriminate].
    assert (H1 : redis st1 !! k = redis st !! k).
    { destruct (process_one_frame _ _ _ _ _ Hone)
        as [->|(name & v & Hslug & ->)]; [reflexivity|].
      apply lookup_insert_ne. intros E.
      exact (Hk repo name (or_introl eq_refl) Hslug (eq_sym E)). }
    destruct r1 as [u|e].
    + rewrite <- H1. apply (IH _ _ _ _ Hrun).
      intros repo' name Hin. apply Hk. right. exact Hin.
    + injection Hrun as <- <-. exact H1.
Qed.

(** Whatever a run does, the only keys of the store it can change are the
    checkpoint keys of the repositories the listing returned; every other
    key holds afterwards what it held before. *)
Theorem process_touches_only_checkpoints fuel st r st' k :
  process fuel st = Some (r, st') ->
  (forall repos repo name,
     listing (trace st) "https://bitbucket.org/api/1.0/user/repositories"
       = Ok repos ->
     In repo repos -> repo !! "slug" = Some name ->
     k <> checkpoint_key name) ->
  redis st' !! k = redis st !! k.
Proof.
  unfold process, get_repositories. intros Hrun Hk.
  destruct (listing _ _) as [repos|e] eqn:Hl.
  - rewrite (process_repos_frame _ _ _ _ _ k Hrun); [reflexivity|].
    intros repo name. apply (Hk repos repo name eq_refl).
  - injection Hrun as <- <-. reflexivity.
Qed.

End Orchestrator.

(** ** Retries and pages *)

Section Pages.

Lemma post_finished_refused (st : state) (cont : string) :
  post_queue st <> [] ->
  endpoint (trace st) (post_queue st) = Ok cont ->
  post_finished st =
    if String.eqb cont "OK"
    then (Ok (), set_post_queue [] (emit (HttpPost (post_queue st)) st))
    else (Ok (), emit (HttpPost (post_queue st)) st).
Proof.
  intros Hq He. unfold post_finished, post, mbind, M_bind, mret, M_ret.
  cbn zeta.
  destruct (post_queue st) as [|e q] eqn:Eq; [contradiction|].
  cbn [length Nat.ltb Nat.leb bool_decide decide_rel].
  rewrite orb_true_r, He. destruct (String.eqb cont "OK"); reflexivity.
Qed.

(** A refused batch is sent again, whole and first, by the next final flush,
    followed by what was enqueued in between (as long as that stays within
    100 pending events, so that no flush happens on the way). After an
    accepted batch the next final flush has nothing to send. *)
Theorem refused_batch_is_resent (st : state) (cont : string)
    (es : list event) :
  post_queue st <> [] ->
  endpoint (trace st) (post_queue st) = Ok cont ->
  (cont <> "OK" ->
   (length (post_queue st) + length es <= 100)%nat ->
   trace (post_finished (enqueue_all es (post_finished st).2).2).2
     = trace st ++ [HttpPost (post_queue st);
                    HttpPost (post_queue st ++ es)])
  /\ (cont = "OK" ->
      trace (post_finished (post_finished st).2).2
        = trace st ++ [HttpPost (post_queue st)]).
Proof.
  intros Hq He. rewrite (post_finished_refused st cont Hq He). split.
  - intros Hno Hlen.
    destruct (String.eqb_spec cont "OK") as [E|_]; [contradiction|].
    cbn [snd]. rewrite enqueue_all_below by exact Hlen.
    cbn [snd emit post_queue].
    destruct (post_finished_trace
                (set_post_queue (post_queue st ++ es)
                   (emit (HttpPost (post_queue st)) st))) as [-> _].
    cbn [set_post_queue emit trace post_queue].
    destruct (post_queue st ++ es) eqn:E.
    + apply app_eq_nil in E. destruct E. contradiction.
    + rewrite <- app_assoc. reflexivity.
  - intros ->. cbn [String.eqb Ascii.eqb Bool.eqb snd].
    destruct (post_finished_trace
                (set_post_queue [] (emit (HttpPost (post_queue st)) st)))
      as [-> _].
    cbn [set_post_queue emit trace post_queue]. apply app_nil_r.
Qed.

(** The checkpoint is written before the final flush and stays written when
    the endpoint refuses the batch: the store holds the new checkpoint while
    the events of the sync are still only pending. *)
Theorem checkpoint_written_before_delivery fuel repo st name last_change v
    st1 cont :
  repo !! "slug" = Some name ->
  name <> "" ->
  repo !! "last_updated" = Some last_change ->
  let key := checkpoint_key name in
  let last_processed := checkpoint_or_epoch (redis st !! key) in
  PyStr.lt last_processed last_change = true ->
  _process_repo fuel name last_processed st = Some (Ok v, st1) ->
  post_queue st1 <> [] ->
  endpoint (trace st1 ++ [RedisSet key v]) (post_queue st1) = Ok cont ->
  cont <> "OK" ->
  exists st',
    process_one fuel repo st = Some (Ok (), st')
    /\ redis st' !! key = Some (redis_encode v)
    /\ post_queue st' = post_queue st1.
Proof.
  intros Hslug Hname Hlast key last_processed Hlt Hsync Hq He Hno.
  assert (Hge : ge_last_change last_processed (repo !! "last_updated") = false).
  { rewrite Hlast. unfold ge_last_change. rewrite lt_not_ge in Hlt.
    destruct (PyStr.ge last_processed last_change); [discriminate|reflexivity]. }
  rewrite (process_one_run fuel repo st name Hslug Hname Hge).
  fold key. fold last_processed. rewrite Hsync.
  set (st2 := emit (RedisSet key v)
                (set_redis (<[key := redis_encode v]> (redis st1)) st1)).
  unfold mbind, M_bind, mret, M_ret.
  rewrite (post_finished_refused st2 cont Hq He).
  destruct (String.eqb_spec cont "OK") as [E|_]; [contradiction|].
  eexists. split; [reflexivity|]. split; [|reflexivity].
  cbn [emit set_redis redis]. apply lookup_insert_eq.
Qed.

Lemma post_gets (data : option event) (st : state) :
  List.filter is_get (trace (post data st).2) = List.filter is_get (trace st).
Proof.
  unfold post.
  destruct data as [e|]; simpl;
    repeat match goal with
           | |- context [if ?b then _ else _] => destruct b; simpl
           | |- context [match endpoint ?t ?q with _ => _ end] =>
               destruct (endpoint t q); simpl
           end;
    rewrite ?List.filter_app; simpl; rewrite ?app_nil_r; reflexivity.
Qed.

Lemma scan_commit_gets name last_processed c best_seen st :
  List.filter is_get (trace (scan_commit name last_processed c best_seen st).2)
  = List.filter is_get (trace st).
Proof.
  unfold scan_commit. run.
  repeat match goal with
         | |- context [match ?x with _ => _ end] =>
             lazymatch x with
             | post _ _ => fail
             | _ => destruct x eqn:?; simpl
             end
         end; try reflexivity.
  all: match goal with
       | |- context [post ?d ?s] =>
           pose proof (post_gets d s) as H;
           destruct (post d s) as [[?|?] ?]
       end; exact H.
Qed.

Lemma scan_page_gets name last_processed cs : forall best_seen st,
  List.filter is_get (trace (scan_page name last_processed cs best_seen st).2)
  = List.filter is_get (trace st).
Proof.
  induction cs as [|c cs IH]; intros best_seen st; simpl; [reflexivity|].
  run. pose proof (scan_commit_gets name last_processed c best_seen st) as H.
  destruct (scan_commit name last_processed c best_seen st)
    as [[[v|v]|e] st1]; simpl in *; try exact H.
  rewrite IH. exact H.
Qed.

Lemma page_outcome_emits name last_processed c rest best_seen ts a dt1 dt2 :
  decode c = Some (ts, a, dt1, dt2) ->
  passes_filter a = true ->
  PyStr.gt ts last_processed = true ->
  page_outcome name last_processed (c :: rest) best_seen
  = (commit_event name ts a dt1 dt2
       :: (page_outcome name last_processed rest (str_max best_seen ts)).1,
     (page_outcome name last_processed rest (str_max best_seen ts)).2).
Proof.
  intros Hd Hf Hgt.
  change (page_outcome name last_processed (c :: rest) best_seen)
    with (match decode c with
          | None => ([], Continue best_seen)
          | Some (ts, a, dt1, dt2) =>
              if negb (passes_filter a)
              then page_outcome name last_processed rest (str_max best_seen ts)
              else if PyStr.gt ts last_processed
              then
                let '(events, r) :=
                  page_outcome name last_processed rest
                    (str_max best_seen ts) in
                (commit_event name ts a dt1 dt2 :: events, r)
              else ([], Return (str_max best_seen ts))
          end).
  rewrite Hd, Hf, Hgt. cbn [negb].
  destruct (page_outcome name last_processed rest (str_max best_seen ts));
    reflexivity.
Qed.

(** Two pages. When the scan of the first page (two commits or more, all
    readable) goes through, the second request carries the node of the
    first changeset of that page as its start. When the reply to it is that
    one changeset alone, it is scanned like any other, against the
    checkpoint the sync started with: if it passes the filter and is newer
    than that checkpoint, its event is handed over a second time. *)
Theorem echoed_cursor_is_handed_over_twice fuel name last_processed best_seen
    st page1 page2 c c' cs node b1 :
  answers ->
  (forall tr, upstream tr (commits_url name None) = Ok page1) ->
  (forall tr, upstream tr (commits_url name (Some node)) = Ok page2) ->
  page1 !! "changesets" = Some (c :: c' :: cs) ->
  page2 !! "changesets" = Some [c] ->
  c !! "node" = Some node ->
  Forall (fun c => is_Some (decode c)) (c :: c' :: cs) ->
  (page_outcome name last_processed (c :: c' :: cs) best_seen).2
    = Continue b1 ->
  exists st',
    process_repo_loop (S (S fuel)) name last_processed best_seen None st
      = Some (Ok (Some (flow_value
                          (page_outcome name last_processed [c] b1).2)), st')
    /\ delivered (trace st') ++ post_queue st'
       = (delivered (trace st) ++ post_queue st)
         ++ (page_outcome name last_processed (c :: c' :: cs) best_seen).1
         ++ (page_outcome name last_processed [c] b1).1
    /\ List.filter is_get (trace st')
       = List.filter is_get (trace st)
         ++ [HttpGet (commits_url name None);
             HttpGet (commits_url name (Some node))]
    /\ forall ts a dt1 dt2,
         decode c = Some (ts, a, dt1, dt2) ->
         passes_filter a = true ->
         PyStr.gt ts last_processed = true ->
         exists between,
           (page_outcome name last_processed (c :: c' :: cs) best_seen).1
           ++ (page_outcome name last_processed [c] b1).1
           = commit_event name ts a dt1 dt2
               :: between ++ [commit_event name ts a dt1 dt2].
Proof.
  intros Ha Hup1 Hup2 Hcs1 Hcs2 Hnode Hall Hcont.
  pose proof (Forall_inv Hall) as Hc.
  rewrite (loop_step (S fuel) name last_processed best_seen None st page1
             c (c' :: cs) node (Hup1 _) Hcs1 Hnode).
  set (st0 := emit (HttpGet (commits_url name None)) st).
  destruct (scan_page_ledger name last_processed (c :: c' :: cs) Ha Hall
              best_seen st0) as (st1 & Hs1 & Hl1).
  pose proof (scan_page_gets name last_processed (c :: c' :: cs)
                best_seen st0) as Hg1.
  rewrite Hs1 in Hg1 |- *. rewrite Hcont. cbn [snd] in Hg1.
  rewrite (loop_step fuel name last_processed b1 (Some node) st1 page2
             c [] node (Hup2 _) Hcs2 Hnode).
  set (st2 := emit (HttpGet (commits_url name (Some node))) st1).
  assert (Hone : Forall (fun c => is_Some (decode c)) [c])
    by (constructor; [exact Hc|constructor]).
  destruct (scan_page_ledger name last_processed [c] Ha Hone b1 st2)
    as (st3 & Hs3 & Hl3).
  pose proof (scan_page_gets name last_processed [c] b1 st2) as Hg3.
  rewrite Hs3 in Hg3 |- *. cbn [snd] in Hg3.
  exists st3. split; [|split; [|split]].
  - destruct (page_outcome name last_processed [c] b1).2; reflexivity.
  - fold (ledger st3). fold (ledger st). rewrite Hl3.
    subst st2. rewrite ledger_emit_get, Hl1. subst st0.
    rewrite ledger_emit_get, <- app_assoc. reflexivity.
  - rewrite Hg3. subst st2. cbn [emit trace].
    rewrite List.filter_app, Hg1. subst st0. cbn [emit trace].
    rewrite List.filter_app. simpl. rewrite <- app_assoc. reflexivity.
  - intros ts a dt1 dt2 Hd Hf Hgt.
    rewrite !(page_outcome_emits name last_processed c _ _ ts a dt1 dt2
                Hd Hf Hgt).
    cbn [fst page_outcome].
    exists (page_outcome name last_processed (c' :: cs)
              (str_max best_seen ts)).1.
    reflexivity.
Qed.

End Pages.

(** ** The author and the running maximum *)

Section Authors.

Lemma split_absent (c : ascii) (s : string) :
  PyStr.contains c s = false -> PyStr.split c s = [s].
Proof.
  induction s as [|a s IH]; simpl; [reflexivity|].
  destruct (Ascii.eqb a c); [discriminate|].
  intros H. rewrite (IH H). reflexivity.
Qed.

Lemma split_first (c : ascii) (s t : string) :
  PyStr.contains c s = false ->
  PyStr.split c (s +:+ String c t) = s :: PyStr.split c t.
Proof.
  induction s as [|a s IH]; simpl.
  - intros _. rewrite Ascii.eqb_refl. reflexivity.
  - destruct (Ascii.eqb a c); [discriminate|].
    intros H. rewrite (IH H). reflexivity.
Qed.

Lemma split_pieces (c : ascii) (s : string) :
  Forall (fun p => PyStr.contains c p = false) (PyStr.split c s).
Proof.
  induction s as [|a s IH]; simpl.
  - constructor; [reflexivity|constructor].
  - destruct (Ascii.eqb a c) eqn:E.
    + constructor; [reflexivity|exact IH].
    + destruct (PyStr.split c s) as [|h t]; inversion IH; subst.
      * constructor; [simpl; rewrite E; reflexivity|constructor].
      * constructor; [simpl; rewrite E; assumption|assumption].
Qed.

Lemma replace_absent (c : ascii) (new s : string) :
  PyStr.contains c s = false -> PyStr.replace c new s = s.
Proof.
  induction s as [|a s IH]; simpl; [reflexivity|].
  destruct (Ascii.eqb a c); [discriminate|].
  intros H. rewrite (IH H). reflexivity.
Qed.

Lemma replace_app (c : ascii) (new s t : string) :
  PyStr.replace c new (s +:+ t)
  = PyStr.replace c new s +:+ PyStr.replace c new t.
Proof.
  induction s as [|a s IH]; [reflexivity|].
  change ((String a s) +:+ t) with (String a (s +:+ t)).
  cbn [PyStr.replace]. rewrite IH.
  destruct (Ascii.eqb a c); [|reflexivity].
  symmetry. apply append_assoc.
Qed.

Lemma removed_is_gone (c : ascii) (s : string) :
  PyStr.contains c (PyStr.replace c "" s) = false.
Proof.
  induction s as [|a s IH]; simpl; [reflexivity|].
  destruct (Ascii.eqb a c) eqn:E; [exact IH|]. simpl. rewrite E. exact IH.
Qed.

Lemma removal_adds_nothing (c d : ascii) (s : string) :
  PyStr.contains d s = false ->
  PyStr.contains d (PyStr.replace c "" s) = false.
Proof.
  induction s as [|a s IH]; simpl; [reflexivity|].
  destruct (Ascii.eqb a d) eqn:E; [discriminate|]. intros H.
  destruct (Ascii.eqb a c); [exact (IH H)|]. simpl. rewrite E. exact (IH H).
Qed.

Lemma substring_all (s : string) : String.substring 0 (String.length s) s = s.
Proof. induction s as [|a s IH]; simpl; [reflexivity|]. rewrite IH. reflexivity. Qed.

Lemma substring_skip (p s : string) (m : nat) :
  String.substring (String.length p) m (p +:+ s) = String.substring 0 m s.
Proof.
  induction p as [|a p IH]; [reflexivity|].
  change ((String a p) +:+ s) with (String a (p +:+ s)). simpl. exact IH.
Qed.

Lemma length_append (s t : string) :
  String.length (s +:+ t) = (String.length s + String.length t)%nat.
Proof.
  induction s as [|a s IH]; [reflexivity|].
  change ((String a s) +:+ t) with (String a (s +:+ t)). simpl.
  rewrite IH. reflexivity.
Qed.

Lemma endswith_append (p d : string) : PyStr.endswith (p +:+ d) d = true.
Proof.
  unfold PyStr.endswith. rewrite length_append.
  destruct (Nat.leb_spec (String.length d)
              (String.length p + String.length d)); [|lia].
  replace (String.length p + String.length d - String.length d)%nat
    with (String.length p) by lia.
  rewrite substring_skip, substring_all. apply String.eqb_refl.
Qed.

(** The address taken out of a raw author never has an angle bracket in it,
    and for an author written as a name, "<", an address and ">" (no
    bracket inside the name or the address) it is the address; such an
    author passes the filter exactly when the address ends with the
    configured domain. *)
Theorem author_email_extracts :
  (forall a,
     PyStr.contains "<" (author_email a) = false
     /\ PyStr.contains ">" (author_email a) = false)
  /\ (forall name addr,
        PyStr.contains "<" name = false ->
        PyStr.contains "<" addr = false ->
        PyStr.contains ">" addr = false ->
        author_email (name +:+ "<" +:+ addr +:+ ">") = addr
        /\ passes_filter (name +:+ "<" +:+ addr +:+ ">")
           = PyStr.endswith addr email_domain).
Proof.
  split.
  - intros a. unfold author_email. split.
    + apply removal_adds_nothing.
      pose proof (split_pieces "<" a) as H.
      destruct (PyStr.split "<" a) as [|h [|x t]]; try reflexivity.
      inversion H as [|? ? _ H']. inversion H'. assumption.
    + apply removed_is_gone.
  - intros name addr Hn Ha Hb.
    assert (He : author_email (name +:+ "<" +:+ addr +:+ ">") = addr).
    { unfold author_email.
      change (name +:+ "<" +:+ addr +:+ ">")
        with (name +:+ String "<" (addr +:+ ">")).
      rewrite (split_first "<" name _ Hn).
      rewrite split_absent
        by (rewrite contains_app, Ha; reflexivity).
      cbn [nth]. rewrite replace_app, (replace_absent ">" "" addr Hb).
      apply append_nil_r. }
    split; [exact He|].
    unfold passes_filter. rewrite He.
    change (name +:+ "<" +:+ addr +:+ ">")
      with (name +:+ String "<" (addr +:+ ">")).
    rewrite contains_app. cbn [PyStr.contains Ascii.eqb Bool.eqb].
    rewrite orb_true_r. reflexivity.
Qed.

(** The filter is a test on the end of the text, not on the part after the
    "@": an address that ends with the configured domain passes whatever
    stands before it, and with an empty domain every address passes. *)
Theorem filter_is_a_suffix_test (name before : string) :
  PyStr.contains "<" name = false ->
  PyStr.contains "<" before = false ->
  PyStr.contains ">" before = false ->
  PyStr.contains "<" email_domain = false ->
  PyStr.contains ">" email_domain = false ->
  passes_filter (name +:+ "<" +:+ (before +:+ email_domain) +:+ ">") = true.
Proof.
  intros Hn Hb1 Hb2 Hd1 Hd2.
  assert (H1 : PyStr.contains "<" (before +:+ email_domain) = false)
    by (rewrite contains_app, Hb1, Hd1; reflexivity).
  assert (H2 : PyStr.contains ">" (before +:+ email_domain) = false)
    by (rewrite contains_app, Hb2, Hd2; reflexivity).
  unfold passes_filter, author_email.
  change (name +:+ "<" +:+ (before +:+ email_domain) +:+ ">")
    with (name +:+ String "<" ((before +:+ email_domain) +:+ ">")).
  rewrite (split_first "<" name _ Hn).
  rewrite split_absent by (rewrite contains_app, H1; reflexivity).
  cbn [nth]. rewrite replace_app, (replace_absent ">" "" _ H2).
  change (PyStr.replace ">" "" ">") with "".
  rewrite append_nil_r, endswith_append, contains_app.
  cbn [PyStr.contains Ascii.eqb Bool.eqb]. rewrite orb_true_r. reflexivity.
Qed.

(** A page scanned to its end leaves a running maximum that is at or above
    the one it started from and every UTC timestamp on the page, those of
    filtered commits included. *)
Theorem scanned_page_bounds_timestamps name last_processed cs :
  forall best_seen st b st',
    scan_page name last_processed cs best_seen st = (Ok (Continue b), st') ->
    PyStr.le best_seen b = true
    /\ forall c ts,
         In c cs -> c !! "utctimestamp" = Some ts -> PyStr.le ts b = true.
Proof.
  induction cs as [|c cs IH]; intros best_seen st b st'.
  - intros [= <- <-]. split; [apply le_refl|]. intros c ts [].
  - cbn [scan_page]. unfold mbind, M_bind.
    destruct (scan_commit name last_processed c best_seen st)
      as [[[v|v]|e] st1] eqn:Hc; try discriminate.
    intros Hrest. destruct (IH _ _ _ _ Hrest) as [Hv Hall].
    pose proof (scan_commit_ge _ _ _ _ _ _ _ Hc) as Hb. simpl in Hb.
    split; [exact (le_trans _ _ _ Hb Hv)|].
    intros c0 ts [<-|Hin] Hts; [|exact (Hall c0 ts Hin Hts)].
    pose proof (scan_commit_value _ _ _ _ _ _ _ _ Hts Hc) as Hval.
    simpl in Hval. subst v.
    exact (le_trans _ _ _ (str_max_ge_r best_seen ts) Hv).
Qed.

End Authors.

End BitbucketUpdate.

(** * The program on the sample data *)

Section Scenarios.

Local Abbreviation organization := "acme" (only parsing).
Local Abbreviation domain := "example.com" (only parsing).

Example str_naive :
  str (mk_datetime 2024 3 1 0 0 0 0 None) = "2024-03-01 00:00:00".
Proof. vm_compute. reflexivity. Qed.

Example str_aware :
  (Sample.parse "2012-07-23 22:26:36-05:30" ≫= λ dt, mret (str dt))
  = Ok "2012-07-23 22:26:36-05:30".
Proof. vm_compute. reflexivity. Qed.


Lemma empty_page_returns_none_witness :
  Sample.always Sample.no_changesets (trace Sample.synced_in_january)
    (commits_url organization "repo-a" None) = Ok Sample.no_changesets
  /\ (Sample.no_changesets !! "changesets" = None
      \/ Sample.no_changesets !! "changesets" = Some [])
  /\ _process_repo Sample.parse organization domain
       (Sample.always Sample.no_changesets) Sample.accepting 1 "repo-a"
       Sample.january Sample.synced_in_january
     = Some (Ok None,
             emit (HttpGet (commits_url organization "repo-a" None))
               Sample.synced_in_january).
Proof.
  assert (H1 : Sample.always Sample.no_changesets
                 (trace Sample.synced_in_january)
                 (commits_url organization "repo-a" None)
               = Ok Sample.no_changesets) by reflexivity.
  assert (H2 : Sample.no_changesets !! "changesets" = None
               \/ Sample.no_changesets !! "changesets" = Some [])
    by (left; reflexivity).
  split; [exact H1|]. split; [exact H2|].
  exact (proj2 (empty_page_returns_none Sample.parse organization domain
                  (Sample.always Sample.no_changesets) Sample.accepting
                  0 "repo-a" Sample.january Sample.january None
                  Sample.synced_in_january Sample.no_changesets H1 H2)
           eq_refl eq_refl).
Defined.

Lemma february_readable :
  readable Sample.parse Sample.february "2024-02-01T00:00:00"
    "A <a@example.com>" (mk_datetime 2024 2 1 0 0 0 0 None)
    (mk_datetime 2024 2 1 2 0 0 0 None).
Proof.
  split; [vm_compute; reflexivity .. | | vm_compute; reflexivity].
  exists "2024-02-01T02:00:00". split; vm_compute; reflexivity.
Defined.

Lemma exclusive_boundary_witness :
  readable Sample.parse Sample.february "2024-02-01T00:00:00"
    "A <a@example.com>" (mk_datetime 2024 2 1 0 0 0 0 None)
    (mk_datetime 2024 2 1 2 0 0 0 None)
  /\ passes_filter domain "A <a@example.com>" = true
  /\ scan_page Sample.parse domain Sample.accepting "repo-a"
       "2024-02-01T00:00:00" [Sample.february; Sample.march]
       "2024-03-01T00:00:00" Sample.pending
     = (Ok (Return "2024-03-01T00:00:00"), Sample.pending).
Proof.
  split; [exact february_readable|]. split; [reflexivity|].
  destruct (exclusive_boundary Sample.parse organization domain
              (Sample.always Sample.no_changesets) Sample.accepting
              "repo-a" "2024-02-01T00:00:00" Sample.february
              "2024-02-01T00:00:00" "A <a@example.com>"
              (mk_datetime 2024 2 1 0 0 0 0 None)
              (mk_datetime 2024 2 1 2 0 0 0 None)
              "2024-03-01T00:00:00" Sample.pending
              february_readable eq_refl) as (_ & _ & Hstop & _).
  exact (Hstop eq_refl [Sample.march]).
Defined.

Lemma outsider_readable :
  readable Sample.parse Sample.outsider "2024-03-05T00:00:00"
    "B <b@elsewhere.org>" (mk_datetime 2024 3 5 0 0 0 0 None)
    (mk_datetime 2024 3 4 19 0 0 0 None).
Proof.
  split; [vm_compute; reflexivity .. | | vm_compute; reflexivity].
  exists "2024-03-04T19:00:00". split; vm_compute; reflexivity.
Defined.

Lemma domain_filter_witness :
  readable Sample.parse Sample.outsider "2024-03-05T00:00:00"
    "B <b@elsewhere.org>" (mk_datetime 2024 3 5 0 0 0 0 None)
    (mk_datetime 2024 3 4 19 0 0 0 None)
  /\ (PyStr.contains "<" "B <b@elsewhere.org>" = false
      \/ PyStr.endswith (author_email "B <b@elsewhere.org>") domain = false)
  /\ scan_commit Sample.parse domain Sample.accepting "repo-a"
       "2024-02-01T00:00:00" Sample.outsider "2024-03-01T00:00:00"
       Sample.pending
     = (Ok (Continue "2024-03-05T00:00:00"), Sample.pending).
Proof.
  assert (H : PyStr.contains "<" "B <b@elsewhere.org>" = false
              \/ PyStr.endswith (author_email "B <b@elsewhere.org>") domain
                 = false) by (right; reflexivity).
  split; [exact outsider_readable|]. split; [exact H|].
  exact (proj1 (domain_filter Sample.parse domain Sample.accepting "repo-a"
                  "2024-02-01T00:00:00" Sample.outsider "2024-03-05T00:00:00"
                  "B <b@elsewhere.org>" (mk_datetime 2024 3 5 0 0 0 0 None)
                  (mk_datetime 2024 3 4 19 0 0 0 None) "2024-03-01T00:00:00"
                  Sample.pending outsider_readable H)).
Defined.

Lemma flush_threshold_witness :
  post_queue Sample.idle = []
  /\ length (Sample.events 100) = 100%nat
  /\ trace (enqueue_all Sample.accepting (Sample.events 100) Sample.idle).2
     = []
  /\ trace (enqueue_all Sample.accepting
              (Sample.events 100 ++ [Sample.an_event 100]) Sample.idle).2
     = [HttpPost (Sample.events 100 ++ [Sample.an_event 100])].
Proof.
  destruct (flush_threshold Sample.accepting) as (_ & Hbelow & Hover).
  split; [reflexivity|]. split; [reflexivity|]. split.
  - rewrite (Hbelow (Sample.events 100) Sample.idle); [reflexivity|].
    vm_compute. lia.
  - exact (proj1 (Hover (Sample.events 100) (Sample.an_event 100) Sample.idle
                    eq_refl eq_refl)).
Defined.

Lemma delivery_acknowledgment_witness :
  (100 <? length (post_queue Sample.pending))%nat
    || ((0 <? length (post_queue Sample.pending))%nat
        && bool_decide (@None event = None)) = true
  /\ Sample.refusing (trace Sample.pending) (post_queue Sample.pending)
     = Ok "Service Unavailable"
  /\ post_queue (post Sample.refusing None Sample.pending).2
     = post_queue Sample.pending
  /\ trace (post Sample.refusing None Sample.pending).2
     = [HttpPost (post_queue Sample.pending)].
Proof.
  destruct (delivery_acknowledgment Sample.refusing None Sample.pending
              "Service Unavailable" eq_refl eq_refl)
    as (Htrace & _ & Hkeep & _).
  split; [reflexivity|]. split; [reflexivity|]. split.
  - apply Hkeep. discriminate.
  - exact Htrace.
Defined.

Lemma naive_offset_not_empty_witness :
  Sample.parse "2024-03-01T00:00:00" = Ok (mk_datetime 2024 3 1 0 0 0 0 None)
  /\ tzinfo (mk_datetime 2024 3 1 0 0 0 0 None) = None
  /\ 0 <= wall (mk_datetime 2024 3 1 0 0 0 0 None) <= max_wall
  /\ parse_timestamp_utc Sample.parse "2024-03-01T00:00:00"
     = Ok (mk_datetime 2024 3 1 0 0 0 0 None, "-01 00:00:00").
Proof.
  assert (H1 : Sample.parse "2024-03-01T00:00:00"
               = Ok (mk_datetime 2024 3 1 0 0 0 0 None))
    by (vm_compute; reflexivity).
  assert (H3 : 0 <= wall (mk_datetime 2024 3 1 0 0 0 0 None) <= max_wall)
    by (vm_compute; split; discriminate).
  split; [exact H1|]. split; [reflexivity|]. split; [exact H3|].
  exact (proj1 (naive_offset_not_empty Sample.parse "2024-03-01T00:00:00"
                  (mk_datetime 2024 3 1 0 0 0 0 None) H1 eq_refl H3)).
Defined.

Lemma single_commit_page_witness :
  exists st',
    Sample.always (Sample.page_of [Sample.march]) (trace Sample.idle)
      (commits_url organization "repo-a" None)
      = Ok (Sample.page_of [Sample.march])
    /\ Sample.page_of [Sample.march] !! "changesets" = Some [Sample.march]
    /\ Sample.march !! "node" = Some "c3"
    /\ Sample.march !! "utctimestamp" = Some "2024-03-01T00:00:00"
    /\ scan_commit Sample.parse domain Sample.accepting "repo-a" epoch
         Sample.march epoch
         (emit (HttpGet (commits_url organization "repo-a" None)) Sample.idle)
       = (Ok (Continue "2024-03-01T00:00:00"), st')
    /\ _process_repo Sample.parse organization domain
         (Sample.always (Sample.page_of [Sample.march])) Sample.accepting
         1 "repo-a" epoch Sample.idle
       = Some (Ok (Some "2024-03-01T00:00:00"), st')
    /\ count is_get (trace st') = 1%nat.
Proof.
  eexists.
  assert (H1 : Sample.always (Sample.page_of [Sample.march])
                 (trace Sample.idle) (commits_url organization "repo-a" None)
               = Ok (Sample.page_of [Sample.march])) by reflexivity.
  assert (H2 : Sample.page_of [Sample.march] !! "changesets"
               = Some [Sample.march]) by (vm_compute; reflexivity).
  assert (H3 : Sample.march !! "node" = Some "c3")
    by (vm_compute; reflexivity).
  assert (H4 : Sample.march !! "utctimestamp" = Some "2024-03-01T00:00:00")
    by (vm_compute; reflexivity).
  split; [exact H1|]. split; [exact H2|]. split; [exact H3|].
  split; [exact H4|].
  assert (H5 : scan_commit Sample.parse domain Sample.accepting "repo-a" epoch
                 Sample.march epoch
                 (emit (HttpGet (commits_url organization "repo-a" None))
                    Sample.idle)
               = (Ok (Continue "2024-03-01T00:00:00"), _))
    by (vm_compute; reflexivity).
  split; [exact H5|].
  exact (single_commit_page Sample.parse organization domain
           (Sample.always (Sample.page_of [Sample.march])) Sample.accepting
           0 "repo-a" epoch epoch None Sample.idle
           (Sample.page_of [Sample.march]) Sample.march "c3"
           "2024-03-01T00:00:00" _ _ H1 H2 H3 H4 H5).
Defined.

(** C9, as stated. 10:00 at +05:00 is 05:00 UTC, not after 06:00 UTC, so
    [dt1 <= dt2] holds between the two; the function subtracts the readings
    10:00 and 06:00 and gives "-04:00", and with [dt2] a day later
    "+20:00". *)
Lemma whole_days_kept_between_instants :
  dt_le (mk_datetime 2024 3 1 10 0 0 0 (Some Sample.plus_five))
    (mk_datetime 2024 3 1 6 0 0 0 (Some Sample.utc)) = Some true
  /\ dt_add (mk_datetime 2024 3 1 6 0 0 0 (Some Sample.utc)) (td_of_hours 24)
     = Ok (mk_datetime 2024 3 2 6 0 0 0 (Some Sample.utc))
  /\ get_tzinfo_from_dt
       (mk_datetime 2024 3 1 10 0 0 0 (Some Sample.plus_five))
       (mk_datetime 2024 3 1 6 0 0 0 (Some Sample.utc)) = "-04:00"
  /\ get_tzinfo_from_dt
       (mk_datetime 2024 3 1 10 0 0 0 (Some Sample.plus_five))
       (mk_datetime 2024 3 2 6 0 0 0 (Some Sample.utc)) = "+20:00".
Proof. repeat split; vm_compute; reflexivity. Qed.

Lemma whole_days_discarded_witness :
  wall (mk_datetime 2024 3 1 0 0 0 0 None)
    <= wall (mk_datetime 2024 3 1 1 0 0 0 None)
  /\ dt_add (mk_datetime 2024 3 1 1 0 0 0 None) (td_of_hours 24)
     = Ok (mk_datetime 2024 3 2 1 0 0 0 None)
  /\ get_tzinfo_from_dt (mk_datetime 2024 3 1 0 0 0 0 None)
       (mk_datetime 2024 3 2 1 0 0 0 None)
     = get_tzinfo_from_dt (mk_datetime 2024 3 1 0 0 0 0 None)
         (mk_datetime 2024 3 1 1 0 0 0 None)
  /\ get_tzinfo_from_dt (mk_datetime 2024 3 1 0 0 0 0 None)
       (mk_datetime 2024 3 2 1 0 0 0 None) = "+01:00".
Proof.
  assert (H1 : wall (mk_datetime 2024 3 1 0 0 0 0 None)
               <= wall (mk_datetime 2024 3 1 1 0 0 0 None))
    by (vm_compute; discriminate).
  assert (H2 : dt_add (mk_datetime 2024 3 1 1 0 0 0 None) (td_of_hours 24)
               = Ok (mk_datetime 2024 3 2 1 0 0 0 None))
    by (vm_compute; reflexivity).
  split; [exact H1|]. split; [exact H2|]. split.
  - exact (whole_days_discarded _ _ _ H1 H2).
  - vm_compute. reflexivity.
Defined.

Lemma checkpoint_write_and_flush_witness :
  exists r st',
    Sample.repo_a !! "slug" = Some "repo-a"
    /\ "repo-a" <> ""
    /\ Sample.repo_a !! "last_updated" = Some "2024-03-01T00:00:00"
    /\ PyStr.lt
         (checkpoint_or_epoch
            (redis Sample.synced_in_january !! checkpoint_key "repo-a"))
         "2024-03-01T00:00:00" = true
    /\ _process_repo Sample.parse organization domain
         (Sample.always Sample.no_changesets) Sample.accepting 1 "repo-a"
         (checkpoint_or_epoch
            (redis Sample.synced_in_january !! checkpoint_key "repo-a"))
         Sample.synced_in_january
       = Some (Ok None,
               emit (HttpGet (commits_url organization "repo-a" None))
                 Sample.synced_in_january)
    /\ process_one Sample.parse organization domain
         (Sample.always Sample.no_changesets) Sample.accepting 1
         Sample.repo_a Sample.synced_in_january = Some (r, st')
    /\ trace st' = [HttpGet (commits_url organization "repo-a" None);
                    RedisSet (checkpoint_key "repo-a") None]
    /\ redis st' !! checkpoint_key "repo-a" = Some "None".
Proof.
  assert (H1 : Sample.repo_a !! "slug" = Some "repo-a")
    by (vm_compute; reflexivity).
  assert (H2 : "repo-a" <> "") by discriminate.
  assert (H3 : Sample.repo_a !! "last_updated" = Some "2024-03-01T00:00:00")
    by (vm_compute; reflexivity).
  assert (H4 : PyStr.lt
                 (checkpoint_or_epoch
                    (redis Sample.synced_in_january
                       !! checkpoint_key "repo-a"))
                 "2024-03-01T00:00:00" = true) by (vm_compute; reflexivity).
  assert (H5 : _process_repo Sample.parse organization domain
                 (Sample.always Sample.no_changesets) Sample.accepting 1
                 "repo-a"
                 (checkpoint_or_epoch
                    (redis Sample.synced_in_january
                       !! checkpoint_key "repo-a"))
                 Sample.synced_in_january
               = Some (Ok None,
                       emit (HttpGet (commits_url organization "repo-a" None))
                         Sample.synced_in_january))
    by (vm_compute; reflexivity).
  destruct (checkpoint_write_and_flush Sample.parse organization domain
              (Sample.always Sample.no_changesets) Sample.accepting 1
              Sample.repo_a Sample.synced_in_january "repo-a"
              "2024-03-01T00:00:00" None _ H1 H2 H3 H4 H5)
    as (r & st' & Hone & _ & Htrace & Hredis & _).
  exists r, st'.
  split; [exact H1|]. split; [exact H2|]. split; [exact H3|].
  split; [exact H4|]. split; [exact H5|]. split; [exact Hone|].
  split; [exact Htrace|]. rewrite Hredis. apply lookup_insert_eq.
Defined.

Lemma returned_checkpoint_monotone_witness :
  _process_repo Sample.parse organization domain
    (Sample.always (Sample.page_of [Sample.march])) Sample.accepting
    1 "repo-a" Sample.january Sample.idle
  = Some (Ok (Some "2024-03-01T00:00:00"),
          {| post_queue :=
               [commit_event "repo-a" "2024-03-01T00:00:00"
                  "A <a@example.com>" (mk_datetime 2024 3 1 0 0 0 0 None)
                  (mk_datetime 2024 3 1 2 0 0 0 None)];
             redis := ∅;
             trace := [HttpGet (commits_url organization "repo-a" None)] |})
  /\ PyStr.le Sample.january "2024-03-01T00:00:00" = true.
Proof.
  assert (H : _process_repo Sample.parse organization domain
                (Sample.always (Sample.page_of [Sample.march]))
                Sample.accepting 1 "repo-a" Sample.january Sample.idle
              = Some (Ok (Some "2024-03-01T00:00:00"),
                      {| post_queue :=
                           [commit_event "repo-a" "2024-03-01T00:00:00"
                              "A <a@example.com>"
                              (mk_datetime 2024 3 1 0 0 0 0 None)
                              (mk_datetime 2024 3 1 2 0 0 0 None)];
                         redis := ∅;
                         trace := [HttpGet
                                     (commits_url organization "repo-a" None)]
                      |})) by (vm_compute; reflexivity).
  split; [exact H|].
  exact (returned_checkpoint_monotone _ _ _ _ _ _ _ _ _ _ _ H).
Defined.


Lemma anonymous_readable :
  readable Sample.parse Sample.anonymous "2024-03-06T00:00:00" "nobody"
    (mk_datetime 2024 3 6 0 0 0 0 None) (mk_datetime 2024 3 6 0 0 0 0 None).
Proof.
  split; [vm_compute; reflexivity .. | | vm_compute; reflexivity].
  exists "2024-03-06T00:00:00". split; vm_compute; reflexivity.
Defined.

Example anonymous_skipped :
  scan_commit Sample.parse domain Sample.accepting "repo-a" epoch
    Sample.anonymous "2024-03-01T00:00:00" Sample.pending
  = (Ok (Continue "2024-03-06T00:00:00"), Sample.pending).
Proof. vm_compute. reflexivity. Qed.

Lemma never_returns_on_repeating_page_witness :
  (forall tr url,
     Sample.always (Sample.page_of [Sample.outsider; Sample.anonymous]) tr url
     = Ok (Sample.page_of [Sample.outsider; Sample.anonymous]))
  /\ Sample.page_of [Sample.outsider; Sample.anonymous] !! "changesets"
     = Some [Sample.outsider; Sample.anonymous]
  /\ Sample.outsider !! "node" = Some "c4"
  /\ _process_repo Sample.parse organization domain
       (Sample.always (Sample.page_of [Sample.outsider; Sample.anonymous]))
       Sample.accepting 1000 "repo-a" epoch Sample.idle = None.
Proof.
  assert (H1 : forall tr url,
            Sample.always (Sample.page_of [Sample.outsider; Sample.anonymous])
              tr url
            = Ok (Sample.page_of [Sample.outsider; Sample.anonymous]))
    by reflexivity.
  assert (H2 : Sample.page_of [Sample.outsider; Sample.anonymous]
                 !! "changesets"
               = Some [Sample.outsider; Sample.anonymous])
    by (vm_compute; reflexivity).
  assert (H3 : Sample.outsider !! "node" = Some "c4")
    by (vm_compute; reflexivity).
  split; [exact H1|]. split; [exact H2|]. split; [exact H3|].
  apply (never_returns_on_repeating_page Sample.parse organization domain
           (Sample.always (Sample.page_of [Sample.outsider; Sample.anonymous]))
           Sample.accepting "repo-a" epoch _ _ _ _ "c4" H1 H2 H3).
  intros best_seen st.
  exists (str_max (str_max best_seen "2024-03-05T00:00:00")
            "2024-03-06T00:00:00"), st.
  cbn [scan_page].
  unfold mbind, mret, M_bind, M_ret.
  rewrite (scan_commit_readable Sample.parse domain Sample.accepting "repo-a"
             epoch _ _ _ _ _ best_seen st outsider_readable).
  cbn [negb passes_filter].
  change (passes_filter domain "B <b@elsewhere.org>") with false.
  cbn [negb].
  rewrite (scan_commit_readable Sample.parse domain Sample.accepting "repo-a"
             epoch _ _ _ _ _ _ st anonymous_readable).
  reflexivity.
Defined.

Lemma offset_rendering_witness :
  0 <= 5 < 24 /\ 0 <= 30 < 60 /\ 0 <= 59999999 < 60 * us_per_second
  /\ get_tzinfo_from_dt (mk_datetime 2024 3 1 12 0 0 0 None)
       (mk_datetime 2024 3 1 17 30 59 999999 None) = "+05:30"
  /\ get_tzinfo_from_dt (mk_datetime 2024 3 1 17 30 59 999999 None)
       (mk_datetime 2024 3 1 12 0 0 0 None) = "-05:30".
Proof.
  assert (H1 : 0 <= 5 < 24) by lia.
  assert (H2 : 0 <= 30 < 60) by lia.
  assert (H3 : 0 <= 59999999 < 60 * us_per_second)
    by (unfold us_per_second; lia).
  split; [exact H1|]. split; [exact H2|]. split; [exact H3|].
  split.
  - exact (proj1 (offset_rendering (mk_datetime 2024 3 1 12 0 0 0 None)
                    (mk_datetime 2024 3 1 17 30 59 999999 None)
                    5 30 59999999 H1 H2 H3) eq_refl).
  - exact (proj2 (offset_rendering (mk_datetime 2024 3 1 17 30 59 999999 None)
                    (mk_datetime 2024 3 1 12 0 0 0 None)
                    5 30 59999999 H1 H2 H3) eq_refl eq_refl).
Defined.

Lemma offset_sign_flip_witness :
  wall (mk_datetime 2024 3 4 19 0 0 0 None)
    < wall (mk_datetime 2024 3 5 0 0 0 0 None)
  /\ get_tzinfo_from_dt (mk_datetime 2024 3 4 19 0 0 0 None)
       (mk_datetime 2024 3 5 0 0 0 0 None) = "+05:00"
  /\ get_tzinfo_from_dt (mk_datetime 2024 3 5 0 0 0 0 None)
       (mk_datetime 2024 3 4 19 0 0 0 None) = "-05:00".
Proof.
  assert (H : wall (mk_datetime 2024 3 4 19 0 0 0 None)
              < wall (mk_datetime 2024 3 5 0 0 0 0 None))
    by (vm_compute; reflexivity).
  split; [exact H|].
  destruct (offset_sign_flip _ _ H) as (tail & Hplus & Hminus & _).
  assert (Ht : tail = "05:00").
  { assert (E : String "+" tail = "+05:00")
      by (rewrite <- Hplus; vm_compute; reflexivity).
    injection E as E. exact E. }
  rewrite Hplus, Hminus, Ht. split; reflexivity.
Defined.

Lemma offset_string_never_empty_witness :
  parse_timestamp_utc Sample.parse "2012-07-23 22:26:36+00:00"
    = Ok (mk_datetime 2012 7 23 22 26 36 0 None, "+00:00")
  /\ exists c tail, "+00:00" = String c tail /\ is_sign c.
Proof.
  assert (H : parse_timestamp_utc Sample.parse "2012-07-23 22:26:36+00:00"
              = Ok (mk_datetime 2012 7 23 22 26 36 0 None, "+00:00"))
    by (vm_compute; reflexivity).
  split; [exact H|].
  exact (offset_string_never_empty Sample.parse _ _ H).
Defined.


Lemma accepting_answers : answers Sample.accepting.
Proof. intros tr body. exists "OK". reflexivity. Defined.

Lemma refusing_answers : answers Sample.refusing.
Proof. intros tr body. exists "Service Unavailable". reflexivity. Defined.

Lemma scan_page_hands_over_witness :
  exists st',
    answers Sample.accepting
    /\ Forall (fun c => is_Some (decode Sample.parse c))
         [Sample.march; Sample.outsider; Sample.february; Sample.anonymous]
    /\ scan_page Sample.parse domain Sample.accepting "repo-a"
         "2024-02-01T00:00:00"
         [Sample.march; Sample.outsider; Sample.february; Sample.anonymous]
         "2024-02-01T00:00:00" Sample.pending
       = (Ok (Return "2024-03-05T00:00:00"), st')
    /\ delivered Sample.accepting (trace st') ++ post_queue st'
       = [Sample.an_event 0;
          commit_event "repo-a" "2024-03-01T00:00:00"
            "A <a@example.com>" (mk_datetime 2024 3 1 0 0 0 0 None)
            (mk_datetime 2024 3 1 2 0 0 0 None)].
Proof.
  assert (Hall : Forall (fun c => is_Some (decode Sample.parse c))
                   [Sample.march; Sample.outsider; Sample.february;
                    Sample.anonymous])
    by (repeat constructor; vm_compute; eexists; reflexivity).
  destruct (scan_page_hands_over Sample.parse organization domain
              Sample.accepting "repo-a"
              "2024-02-01T00:00:00"
              [Sample.march; Sample.outsider; Sample.february;
               Sample.anonymous]
              "2024-02-01T00:00:00" Sample.pending accepting_answers Hall)
    as (st' & Hs & Hl & _).
  exists st'. split; [exact accepting_answers|]. split; [exact Hall|].
  split; [exact Hs|]. rewrite Hl. vm_compute. reflexivity.
Defined.

Lemma truncated_sync_raises :
  _process_repo Sample.parse organization domain
    (Sample.always (Sample.page_of [Sample.march; Sample.truncated]))
    Sample.accepting 1 "repo-a" Sample.january Sample.synced_in_january
  = Some (Raise (KeyError "timestamp"),
          {| post_queue :=
               [commit_event "repo-a" "2024-03-01T00:00:00"
                  "A <a@example.com>" (mk_datetime 2024 3 1 0 0 0 0 None)
                  (mk_datetime 2024 3 1 2 0 0 0 None)];
             redis := redis Sample.synced_in_january;
             trace := [HttpGet (commits_url organization "repo-a" None)] |}).
Proof. vm_compute. reflexivity. Defined.

Lemma failed_sync_aborts_run_witness :
  Sample.repo_a !! "slug" = Some "repo-a"
  /\ "repo-a" <> ""
  /\ Sample.repo_a !! "last_updated" = Some "2024-03-01T00:00:00"
  /\ PyStr.lt Sample.january "2024-03-01T00:00:00" = true
  /\ process Sample.parse organization domain
       (Sample.always (Sample.page_of [Sample.march; Sample.truncated]))
       (Sample.lists [Sample.repo_a; Sample.repo_a]) Sample.accepting 1
       Sample.synced_in_january
     = Some (Raise (KeyError "timestamp"),
             {| post_queue :=
                  [commit_event "repo-a" "2024-03-01T00:00:00"
                     "A <a@example.com>" (mk_datetime 2024 3 1 0 0 0 0 None)
                     (mk_datetime 2024 3 1 2 0 0 0 None)];
                redis := redis Sample.synced_in_january;
                trace :=
                  [HttpGet "https://bitbucket.org/api/1.0/user/repositories";
                   HttpGet (commits_url organization "repo-a" None)] |}).
Proof.
  assert (H1 : Sample.repo_a !! "slug" = Some "repo-a")
    by (vm_compute; reflexivity).
  assert (H2 : "repo-a" <> "") by discriminate.
  assert (H3 : Sample.repo_a !! "last_updated" = Some "2024-03-01T00:00:00")
    by (vm_compute; reflexivity).
  assert (H4 : PyStr.lt Sample.january "2024-03-01T00:00:00" = true)
    by reflexivity.
  split; [exact H1|]. split; [exact H2|]. split; [exact H3|].
  split; [exact H4|].
  set (st0 := emit (HttpGet "https://bitbucket.org/api/1.0/user/repositories")
                Sample.synced_in_january).
  assert (H5 : _process_repo Sample.parse organization domain
                 (Sample.always (Sample.page_of [Sample.march; Sample.truncated]))
                 Sample.accepting 1 "repo-a"
                 (checkpoint_or_epoch
                    (redis st0 !! checkpoint_key "repo-a")) st0
               = Some (Raise (KeyError "timestamp"),
                       {| post_queue :=
                            [commit_event "repo-a" "2024-03-01T00:00:00"
                               "A <a@example.com>"
                               (mk_datetime 2024 3 1 0 0 0 0 None)
                               (mk_datetime 2024 3 1 2 0 0 0 None)];
                          redis := redis Sample.synced_in_january;
                          trace :=
                            [HttpGet
                               "https://bitbucket.org/api/1.0/user/repositories";
                             HttpGet (commits_url organization "repo-a" None)]
                       |})) by (vm_compute; reflexivity).
  exact (proj1 (failed_sync_aborts_run Sample.parse organization domain
                  (Sample.always
                     (Sample.page_of [Sample.march; Sample.truncated]))
                  Sample.accepting 1 Sample.repo_a [Sample.repo_a] st0
                  "repo-a" "2024-03-01T00:00:00" _ _ H1 H2 H3 H4 H5)).
Defined.

Lemma process_touches_only_checkpoints_witness :
  exists st',
    process Sample.parse organization domain
      (Sample.always (Sample.page_of [Sample.march]))
      (Sample.lists [Sample.repo_a]) Sample.accepting 1 Sample.shared_store
    = Some (Ok (), st')
    /\ redis st' !! Sample.key_a = Some "2024-03-01T00:00:00"
    /\ redis st' !! "sessions" = Some "42".
Proof.
  eexists.
  assert (Hrun : process Sample.parse organization domain
                   (Sample.always (Sample.page_of [Sample.march]))
                   (Sample.lists [Sample.repo_a]) Sample.accepting 1
                   Sample.shared_store = Some (Ok (), _))
    by (vm_compute; reflexivity).
  split; [exact Hrun|]. split; [vm_compute; reflexivity|].
  rewrite (process_touches_only_checkpoints Sample.parse organization domain
             (Sample.always (Sample.page_of [Sample.march]))
             (Sample.lists [Sample.repo_a]) Sample.accepting 1
             Sample.shared_store _ _ "sessions" Hrun).
  - vm_compute. reflexivity.
  - intros repos repo name [= <-] [<-|[]] Hslug.
    assert (E : name = "repo-a").
    { assert (Hs : Sample.repo_a !! "slug" = Some "repo-a")
        by (vm_compute; reflexivity).
      congruence. }
    subst name. discriminate.
Defined.

Lemma refused_batch_is_resent_witness :
  post_queue Sample.pending <> []
  /\ Sample.refusing (trace Sample.pending) (post_queue Sample.pending)
     = Ok "Service Unavailable"
  /\ "Service Unavailable" <> "OK"
  /\ (length (post_queue Sample.pending) + length [Sample.an_event 1]
      <= 100)%nat
  /\ trace (post_finished Sample.refusing
              (enqueue_all Sample.refusing [Sample.an_event 1]
                 (post_finished Sample.refusing Sample.pending).2).2).2
     = [HttpPost [Sample.an_event 0];
        HttpPost [Sample.an_event 0; Sample.an_event 1]].
Proof.
  assert (H1 : post_queue Sample.pending <> []) by discriminate.
  assert (H2 : Sample.refusing (trace Sample.pending)
                 (post_queue Sample.pending) = Ok "Service Unavailable")
    by reflexivity.
  assert (H3 : "Service Unavailable" <> "OK") by discriminate.
  assert (H4 : (length (post_queue Sample.pending)
                + length [Sample.an_event 1] <= 100)%nat)
    by (simpl; lia).
  split; [exact H1|]. split; [exact H2|]. split; [exact H3|].
  split; [exact H4|].
  exact (proj1 (refused_batch_is_resent Sample.refusing Sample.pending
                  "Service Unavailable" [Sample.an_event 1] H1 H2) H3 H4).
Defined.

Lemma checkpoint_written_before_delivery_witness :
  exists st1 st',
    Sample.repo_a !! "slug" = Some "repo-a"
    /\ "repo-a" <> ""
    /\ Sample.repo_a !! "last_updated" = Some "2024-03-01T00:00:00"
    /\ PyStr.lt Sample.january "2024-03-01T00:00:00" = true
    /\ _process_repo Sample.parse organization domain
         (Sample.always (Sample.page_of [Sample.march])) Sample.refusing 1
         "repo-a" Sample.january Sample.synced_in_january
       = Some (Ok (Some "2024-03-01T00:00:00"), st1)
    /\ post_queue st1
       = [commit_event "repo-a" "2024-03-01T00:00:00" "A <a@example.com>"
            (mk_datetime 2024 3 1 0 0 0 0 None)
            (mk_datetime 2024 3 1 2 0 0 0 None)]
    /\ "Service Unavailable" <> "OK"
    /\ process_one Sample.parse organization domain
         (Sample.always (Sample.page_of [Sample.march])) Sample.refusing 1
         Sample.repo_a Sample.synced_in_january = Some (Ok (), st')
    /\ redis st' !! Sample.key_a = Some "2024-03-01T00:00:00"
    /\ post_queue st' = post_queue st1.
Proof.
  eexists. 
  assert (H1 : Sample.repo_a !! "slug" = Some "repo-a")
    by (vm_compute; reflexivity).
  assert (H2 : "repo-a" <> "") by discriminate.
  assert (H3 : Sample.repo_a !! "last_updated" = Some "2024-03-01T00:00:00")
    by (vm_compute; reflexivity).
  assert (H4 : PyStr.lt Sample.january "2024-03-01T00:00:00" = true)
    by reflexivity.
  assert (H5 : _process_repo Sample.parse organization domain
                 (Sample.always (Sample.page_of [Sample.march]))
                 Sample.refusing 1 "repo-a"
                 (checkpoint_or_epoch
                    (redis Sample.synced_in_january
                       !! checkpoint_key "repo-a"))
                 Sample.synced_in_january
               = Some (Ok (Some "2024-03-01T00:00:00"), _))
    by (vm_compute; reflexivity).
  assert (H6 : "Service Unavailable" <> "OK") by discriminate.
  destruct (checkpoint_written_before_delivery Sample.parse organization
              domain (Sample.always (Sample.page_of [Sample.march]))
              Sample.refusing 1 Sample.repo_a Sample.synced_in_january
              "repo-a" "2024-03-01T00:00:00" _ _ "Service Unavailable"
              H1 H2 H3 H4 H5 ltac:(discriminate) eq_refl H6)
    as (st' & Hone & Hredis & Hqueue).
  exists st'.
  split; [exact H1|]. split; [exact H2|]. split; [exact H3|].
  split; [exact H4|]. split; [exact H5|]. split; [reflexivity|].
  split; [exact H6|]. split; [exact Hone|]. split; [exact Hredis|].
  exact Hqueue.
Defined.

Lemma echoed_cursor_is_handed_over_twice_witness :
  exists st',
    answers Sample.accepting
    /\ Sample.page_of [Sample.march; Sample.february] !! "changesets"
       = Some [Sample.march; Sample.february]
    /\ Sample.page_of [Sample.march] !! "changesets" = Some [Sample.march]
    /\ Sample.march !! "node" = Some "c3"
    /\ _process_repo Sample.parse organization domain
         (Sample.paged (Sample.page_of [Sample.march; Sample.february])
            (Sample.page_of [Sample.march]))
         Sample.accepting 2 "repo-a" epoch Sample.idle
       = Some (Ok (Some "2024-03-01T00:00:00"), st')
    /\ post_queue st'
       = [commit_event "repo-a" "2024-03-01T00:00:00" "A <a@example.com>"
            (mk_datetime 2024 3 1 0 0 0 0 None)
            (mk_datetime 2024 3 1 2 0 0 0 None);
          commit_event "repo-a" "2024-02-01T00:00:00" "A <a@example.com>"
            (mk_datetime 2024 2 1 0 0 0 0 None)
            (mk_datetime 2024 2 1 2 0 0 0 None);
          commit_event "repo-a" "2024-03-01T00:00:00" "A <a@example.com>"
            (mk_datetime 2024 3 1 0 0 0 0 None)
            (mk_datetime 2024 3 1 2 0 0 0 None)]
    /\ trace st'
       = [HttpGet (commits_url organization "repo-a" None);
          HttpGet (commits_url organization "repo-a" (Some "c3"))].
Proof.
  assert (Hup1 : forall tr,
            Sample.paged (Sample.page_of [Sample.march; Sample.february])
              (Sample.page_of [Sample.march]) tr
              (commits_url organization "repo-a" None)
            = Ok (Sample.page_of [Sample.march; Sample.february]))
    by (intros tr; vm_compute; reflexivity).
  assert (Hup2 : forall tr,
            Sample.paged (Sample.page_of [Sample.march; Sample.february])
              (Sample.page_of [Sample.march]) tr
              (commits_url organization "repo-a" (Some "c3"))
            = Ok (Sample.page_of [Sample.march]))
    by (intros tr; vm_compute; reflexivity).
  assert (Hcs1 : Sample.page_of [Sample.march; Sample.february]
                   !! "changesets" = Some [Sample.march; Sample.february])
    by (vm_compute; reflexivity).
  assert (Hcs2 : Sample.page_of [Sample.march] !! "changesets"
                 = Some [Sample.march]) by (vm_compute; reflexivity).
  assert (Hnode : Sample.march !! "node" = Some "c3")
    by (vm_compute; reflexivity).
  assert (Hall : Forall (fun c => is_Some (decode Sample.parse c))
                   [Sample.march; Sample.february])
    by (repeat constructor; vm_compute; eexists; reflexivity).
  destruct (echoed_cursor_is_handed_over_twice Sample.parse organization
              domain
              (Sample.paged (Sample.page_of [Sample.march; Sample.february])
                 (Sample.page_of [Sample.march]))
              Sample.accepting 0 "repo-a" epoch epoch Sample.idle
              (Sample.page_of [Sample.march; Sample.february])
              (Sample.page_of [Sample.march]) Sample.march Sample.february []
              "c3" "2024-03-01T00:00:00" accepting_answers Hup1 Hup2 Hcs1
              Hcs2 Hnode Hall ltac:(vm_compute; reflexivity))
    as (st' & Hrun & _).
  exists st'.
  split; [exact accepting_answers|]. split; [exact Hcs1|].
  split; [exact Hcs2|]. split; [exact Hnode|].
  assert (Hst : Some (Ok (Some "2024-03-01T00:00:00"), st')
                = _process_repo Sample.parse organization domain
                    (Sample.paged
                       (Sample.page_of [Sample.march; Sample.february])
                       (Sample.page_of [Sample.march]))
                    Sample.accepting 2 "repo-a" epoch Sample.idle)
    by (symmetry; exact Hrun).
  split; [exact Hrun|].
  vm_compute in Hst. injection Hst as ->. split; reflexivity.
Defined.

Lemma scanned_page_bounds_timestamps_witness :
  scan_page Sample.parse domain Sample.accepting "repo-a" epoch
    [Sample.outsider; Sample.anonymous] "2024-03-01T00:00:00" Sample.idle
  = (Ok (Continue "2024-03-06T00:00:00"), Sample.idle)
  /\ In Sample.outsider [Sample.outsider; Sample.anonymous]
  /\ Sample.outsider !! "utctimestamp" = Some "2024-03-05T00:00:00"
  /\ PyStr.le "2024-03-05T00:00:00" "2024-03-06T00:00:00" = true.
Proof.
  assert (H1 : scan_page Sample.parse domain Sample.accepting "repo-a" epoch
                 [Sample.outsider; Sample.anonymous] "2024-03-01T00:00:00"
                 Sample.idle
               = (Ok (Continue "2024-03-06T00:00:00"), Sample.idle))
    by (vm_compute; reflexivity).
  assert (H2 : In Sample.outsider [Sample.outsider; Sample.anonymous])
    by (left; reflexivity).
  assert (H3 : Sample.outsider !! "utctimestamp"
               = Some "2024-03-05T00:00:00") by (vm_compute; reflexivity).
  split; [exact H1|]. split; [exact H2|]. split; [exact H3|].
  exact (proj2 (scanned_page_bounds_timestamps Sample.parse domain
                  Sample.accepting "repo-a" epoch _ _ _ _ _ H1)
           Sample.outsider _ H2 H3).
Defined.

Lemma filter_is_a_suffix_test_witness :
  PyStr.contains "<" "M " = false
  /\ PyStr.contains "<" "mallory@not" = false
  /\ PyStr.contains ">" "mallory@not" = false
  /\ PyStr.contains "<" domain = false
  /\ PyStr.contains ">" domain = false
  /\ passes_filter domain "M <mallory@notexample.com>" = true.
Proof.
  repeat (split; [reflexivity|]).
  exact (filter_is_a_suffix_test domain "M " "mallory@not"
           eq_refl eq_refl eq_refl eq_refl eq_refl).
Defined.

Example repository_without_last_updated_is_skipped :
  process_one Sample.parse organization domain
    (Sample.always (Sample.page_of [Sample.march])) Sample.accepting 1
    (list_to_map [("slug", "repo-b")]) Sample.idle
  = Some (Ok (), Sample.idle).
Proof. vm_compute. reflexivity. Qed.

(** After the null write the store holds the text None for repo-a, which is
    above every timestamp that starts with a digit: a later run, with newer
    commits upstream, asks for the listing and nothing else. *)
Example null_checkpoint_blocks_later_runs :
  exists st1 st2,
    process Sample.parse organization domain
      (Sample.always Sample.no_changesets) (Sample.lists [Sample.repo_a])
      Sample.accepting 1 Sample.synced_in_january = Some (Ok (), st1)
    /\ redis st1 !! Sample.key_a = Some "None"
    /\ process Sample.parse organization domain
         (Sample.always (Sample.page_of [Sample.march]))
         (Sample.lists [Sample.repo_a]) Sample.accepting 1
         {| post_queue := post_queue st1; redis := redis st1; trace := [] |}
       = Some (Ok (), st2)
    /\ trace st2 = [HttpGet "https://bitbucket.org/api/1.0/user/repositories"]
    /\ redis st2 !! Sample.key_a = Some "None".
Proof.
  eexists. eexists. split; [vm_compute; reflexivity|].
  split; [vm_compute; reflexivity|].
  split; [vm_compute; reflexivity|].
  split; vm_compute; reflexivity.
Qed.

End Scenarios.
